(** * Static-asset delivery of the Chisa server (src/backups.js)

    A shallow embedding of the static-file part of [ChisaServer]:
    mount registration ([static]), the per-file pipeline
    ([#serveStaticFile]), the per-response helpers ([res.sendFile],
    [res.download]), the mount iteration ([#handleStaticFiles]) and the
    guard in [listen].  JavaScript strings are [string], integers are [Z]
    (a JavaScript number is a [jsnum], with [NaN] apart), header maps are
    [gmap string string], and the response object mutated by the handlers
    is threaded through a state-and-exception monad. *)

From Stdlib Require Import ZArith Ascii String List Lia Bool.
From stdpp Require Import base option gmap strings.

Local Open Scope string_scope.
Local Open Scope Z_scope.

(* String concatenation unfolds on a literal or a constructor. *)
Local Arguments String.append : simpl nomatch.

(** ** JavaScript strings *)

Module JsString.

(** [s.startsWith(p)] *)
Fixpoint startsWith (p s : string) : bool :=
  match p, s with
  | EmptyString, _ => true
  | String a p', String b s' => if Ascii.eqb a b then startsWith p' s' else false
  | String _ _, EmptyString => false
  end.

(** [s.slice(n)] for [0 <= n] *)
Fixpoint slice (n : nat) (s : string) : string :=
  match n, s with
  | O, _ => s
  | S n', String _ s' => slice n' s'
  | S _, EmptyString => EmptyString
  end.

(** [s.replace(/pat/, empty)] for a pattern without metacharacters: the
    first occurrence of [pat], wherever it is, is removed. *)
Fixpoint removeFirst (pat s : string) : string :=
  if startsWith pat s then slice (String.length pat) s
  else match s with
       | EmptyString => EmptyString
       | String c s' => String c (removeFirst pat s')
       end.

(** [s.split(sep)] for a one-character separator; the result is never
    empty. *)
Fixpoint split (sep : ascii) (s : string) : list string :=
  match s with
  | EmptyString => [EmptyString]
  | String c s' =>
      if Ascii.eqb c sep then EmptyString :: split sep s'
      else match split sep s' with
           | seg :: segs => String c seg :: segs
           | [] => [String c EmptyString]
           end
  end.

(** [segs.join(sep)] *)
Fixpoint join (sep : string) (segs : list string) : string :=
  match segs with
  | [] => EmptyString
  | [seg] => seg
  | seg :: segs' => seg ++ sep ++ join sep segs'
  end.

(** A string is truthy when it is not empty. *)
Definition truthy (s : string) : bool :=
  match s with EmptyString => false | _ => true end.

Fixpoint endsWithChar (c : ascii) (s : string) : bool :=
  match s with
  | EmptyString => false
  | String a EmptyString => Ascii.eqb a c
  | String _ s' => endsWithChar c s'
  end.

End JsString.

(** ** JavaScript numbers

    Every number the handlers compute is an integer or [NaN]: sizes and
    timestamps come from [stat], range bounds from [parseInt].  Doubles
    are exact on integers below [2^53], which covers file sizes and
    millisecond timestamps. *)

Inductive jsnum : Type :=
| NaN : jsnum
| Num : Z -> jsnum.

Module JsNum.

(** [a >= b]: false as soon as one side is [NaN]. *)
Definition geb (a b : jsnum) : bool :=
  match a, b with
  | Num x, Num y => y <=? x
  | _, _ => false
  end.

Definition sub (a b : jsnum) : jsnum :=
  match a, b with
  | Num x, Num y => Num (x - y)
  | _, _ => NaN
  end.

Definition add (a b : jsnum) : jsnum :=
  match a, b with
  | Num x, Num y => Num (x + y)
  | _, _ => NaN
  end.

Definition isDigit (c : ascii) : bool :=
  let n := N_of_ascii c in ((48 <=? n) && (n <=? 57))%N.

Definition digitValue (c : ascii) : Z := Z.of_N (N_of_ascii c) - 48.

Definition digitChar (d : Z) : ascii := ascii_of_N (Z.to_N (d + 48)).

(** White space that [parseInt] skips, on one-byte characters. *)
Definition isWhiteSpace (c : ascii) : bool :=
  let n := N_of_ascii c in
  ((n =? 9) || (n =? 10) || (n =? 11) || (n =? 12) || (n =? 13)
   || (n =? 32) || (n =? 160))%N.

Fixpoint skipWhiteSpace (s : string) : string :=
  match s with
  | String c s' => if isWhiteSpace c then skipWhiteSpace s' else s
  | EmptyString => s
  end.

(** The longest prefix of decimal digits, read left to right into an
    accumulator; returns the value and what follows the digits. *)
Fixpoint readDigits (acc : Z) (s : string) : Z * string :=
  match s with
  | String c s' =>
      if isDigit c then readDigits (10 * acc + digitValue c) s' else (acc, s)
  | EmptyString => (acc, s)
  end.

Definition startsWithDigit (s : string) : bool :=
  match s with
  | String c _ => isDigit c
  | EmptyString => false
  end.

(** [parseInt(s, 10)]: leading white space, an optional sign, then the
    longest run of digits; [NaN] when there is no digit. *)
Definition parseInt (s : string) : jsnum :=
  let t := skipWhiteSpace s in
  let '(neg, u) :=
    match t with
    | String "-" u => (true, u)
    | String "+" u => (false, u)
    | _ => (false, t)
    end in
  if startsWithDigit u
  then let v := fst (readDigits 0 u) in Num (if neg then - v else v)
  else NaN.

(** Decimal digits of a non-negative integer, most significant first,
    put in front of [acc]. *)
Fixpoint digitsOf (fuel : nat) (n : Z) (acc : string) : string :=
  let acc' := String (digitChar (n mod 10)) acc in
  match fuel with
  | O => acc'
  | S fuel' => if n <? 10 then acc' else digitsOf fuel' (n / 10) acc'
  end.

(** [String(n)] for an integer [n], as a template literal prints it. *)
Definition showZ (n : Z) : string :=
  if n <? 0 then String "-" (digitsOf (Z.to_nat (Z.log2 (- n))) (- n) EmptyString)
  else digitsOf (Z.to_nat (Z.log2 n)) n EmptyString.

Definition show (a : jsnum) : string :=
  match a with
  | NaN => "NaN"
  | Num n => showZ n
  end.

End JsNum.

(** ** POSIX paths ([path.join], [path.resolve], [path.basename]) *)

Module Path.

(** [normalizeString]: empty and [.] segments are dropped, [..] removes
    the segment before it; above the start it is kept only for a
    relative path.  [res] holds the segments kept so far, last first. *)
Fixpoint normalizeSegments (allowAboveRoot : bool) (segs res : list string)
  : list string :=
  match segs with
  | [] => rev res
  | seg :: segs' =>
      if String.eqb seg EmptyString || String.eqb seg "." then
        normalizeSegments allowAboveRoot segs' res
      else if String.eqb seg ".." then
        match res with
        | last :: res' =>
            if String.eqb last ".."
            then normalizeSegments allowAboveRoot segs'
                   (if allowAboveRoot then ".." :: res else res)
            else normalizeSegments allowAboveRoot segs' res'
        | [] =>
            normalizeSegments allowAboveRoot segs'
              (if allowAboveRoot then [".."] else [])
        end
      else normalizeSegments allowAboveRoot segs' (seg :: res)
  end.

Definition normalizeString (p : string) (allowAboveRoot : bool) : string :=
  JsString.join "/" (normalizeSegments allowAboveRoot (JsString.split "/" p) []).

Definition isAbsolute (p : string) : bool := JsString.startsWith "/" p.

(** [path.normalize(p)] *)
Definition normalize (p : string) : string :=
  match p with
  | EmptyString => "."
  | _ =>
      let trailingSeparator := JsString.endsWithChar "/" p in
      let body := normalizeString p (negb (isAbsolute p)) in
      match body with
      | EmptyString =>
          if isAbsolute p then "/" else if trailingSeparator then "./" else "."
      | _ =>
          let body' := if trailingSeparator then body ++ "/" else body in
          if isAbsolute p then "/" ++ body' else body'
      end
  end.

(** [path.join(a, b)]: the non-empty arguments are glued with a
    separator and the result is normalized. *)
Definition join (a b : string) : string :=
  match a, b with
  | EmptyString, EmptyString => "."
  | EmptyString, _ => normalize b
  | _, EmptyString => normalize a
  | _, _ => normalize (a ++ "/" ++ b)
  end.

(** [path.resolve(p)] in a process whose working directory is [cwd]. *)
Definition resolve (cwd p : string) : string :=
  let resolvedPath :=
    match p with
    | EmptyString => cwd ++ "/"
    | _ => if isAbsolute p then p ++ "/" else cwd ++ "/" ++ (p ++ "/")
    end in
  let resolvedAbsolute := isAbsolute resolvedPath in
  let body := normalizeString resolvedPath (negb resolvedAbsolute) in
  if resolvedAbsolute then "/" ++ body
  else match body with EmptyString => "." | _ => body end.

(** [path.basename(p)]: the last segment, trailing separators apart. *)
Definition basename (p : string) : string :=
  List.last (List.filter JsString.truthy (JsString.split "/" p)) EmptyString.

End Path.

(** ** Errors, requests, responses *)

(** Modelled from the spec: the [HttpError] class is declared outside the
    source file.  An instance carries the two constructor arguments the
    source passes, read back as [err.status] and [err.message]; it has no
    [code] property, which only the errors of the Node runtime carry
    ([ENOENT], [EACCES], [ERR_OUT_OF_RANGE], ...). *)
Inductive error : Type :=
| HttpError (status : Z) (message : string)
| NodeError (code : string) (message : string)
| ReferenceError (message : string)
| TypeError (message : string).

(** [err.code] *)
Definition code (err : error) : option string :=
  match err with
  | NodeError c _ => Some c
  | _ => None
  end.

(** [err.status] *)
Definition status_of (err : error) : option Z :=
  match err with
  | HttpError s _ => Some s
  | _ => None
  end.

(** [err.message] *)
Definition message_of (err : error) : string :=
  match err with
  | HttpError _ m | NodeError _ m | ReferenceError m | TypeError m => m
  end.

(** [err.code === 'ENOENT'] *)
Definition isENOENT (err : error) : bool :=
  match code err with
  | Some c => String.eqb c "ENOENT"
  | None => false
  end.

(** The values [#handleStaticFiles] and [#serveStaticFile] return. *)
Inductive jsval : Type :=
| JsUndefined
| JsBool (b : bool).


(** The parsed request: [req.path] and [req.headers] (names in lower
    case, as Node delivers them). *)
Record Request : Type := mkRequest {
  path : string;
  headers : gmap string string
}.

(** The response object: status (200 until set), the headers set so far,
    the bytes written, and whether the response has been ended. *)
Record Response : Type := mkResponse {
  statusCode : Z;
  outHeaders : gmap string string;
  body : list Byte.byte;
  finished : bool
}.

Definition freshResponse : Response :=
  {| statusCode := 200; outHeaders := ∅; body := []; finished := false |}.

(** ** Handlers

    A handler mutates the response and either returns or throws. *)

Inductive outcome (A : Type) : Type :=
| Return (a : A) (res : Response)
| Throw (err : error) (res : Response).
Arguments Return {A} a res.
Arguments Throw {A} err res.

Definition handler (A : Type) : Type := Response -> outcome A.

Definition ret {A} (a : A) : handler A := fun res => Return a res.

Definition throw {A} (err : error) : handler A := fun res => Throw err res.

Definition bind {A B} (m : handler A) (k : A -> handler B) : handler B :=
  fun res =>
    match m res with
    | Return a res' => k a res'
    | Throw err res' => Throw err res'
    end.

(** [try { m } catch (err) { h err }] *)
Definition tryCatch {A} (m : handler A) (h : error -> handler A) : handler A :=
  fun res =>
    match m res with
    | Return a res' => Return a res'
    | Throw err res' => h err res'
    end.

Declare Scope handler_scope.
Delimit Scope handler_scope with handler.
Bind Scope handler_scope with handler.
Notation "x <- m ;; k" := (bind m (fun x => k))
  (at level 100, m at next level, k at level 200, right associativity)
  : handler_scope.
Notation "m ;; k" := (bind m (fun _ => k))
  (at level 100, k at level 200, right associativity) : handler_scope.

(** [res.setHeader(name, value)]: a later value replaces an earlier one.
    Names are kept as the source spells them, one spelling for each
    header; Node itself compares names without regard to case. *)
Definition setHeader (name value : string) : handler unit :=
  fun res =>
    Return tt {| statusCode := statusCode res;
                 outHeaders := <[name := value]> (outHeaders res);
                 body := body res;
                 finished := finished res |}.

(** [res.status(n)] *)
Definition status (n : Z) : handler unit :=
  fun res =>
    Return tt {| statusCode := n; outHeaders := outHeaders res;
                 body := body res; finished := finished res |}.

(** [res.end()] *)
Definition end_ : handler unit :=
  fun res =>
    Return tt {| statusCode := statusCode res; outHeaders := outHeaders res;
                 body := body res; finished := true |}.

(** [stream.pipe(res)], by its effect once the stream has been read: the
    bytes are written in order and the response is ended. *)
Definition pipe (bytes : list Byte.byte) : handler unit :=
  fun res =>
    Return tt {| statusCode := statusCode res; outHeaders := outHeaders res;
                 body := body res ++ bytes; finished := true |}.

(** ** The file system *)

Inductive node : Type :=
| RegularFile (content : list Byte.byte) (mtimeMs : Z)
| Directory
| Special.

(** What [fs.promises.stat] resolves to. *)
Record Stats : Type := mkStats {
  isFile : bool;
  isDirectory : bool;
  size : Z;
  mtime : Z
}.

Definition statsOf (n : node) : Stats :=
  match n with
  | RegularFile content mtimeMs =>
      {| isFile := true; isDirectory := false;
         size := Z.of_nat (length content); mtime := mtimeMs |}
  | Directory => {| isFile := false; isDirectory := true; size := 0; mtime := 0 |}
  | Special => {| isFile := false; isDirectory := false; size := 0; mtime := 0 |}
  end.

(** A path leads to a node or fails with an error code and its message. *)
Definition FileSystem : Type := string -> (string * string) + node.

Definition contentOf (n : (string * string) + node) : list Byte.byte :=
  match n with
  | inr (RegularFile content _) => content
  | _ => []
  end.

(** The bytes from offset [start] to offset [end], both included. *)
Definition window (start end_off : Z) (content : list Byte.byte) : list Byte.byte :=
  take (Z.to_nat (end_off - start + 1)) (drop (Z.to_nat start) content).

(** ** Mounts *)

(** The options object stored with a mount and handed to
    [#serveStaticFile]; an absent or falsy [index] is the empty string,
    an absent [etag] is [false], an absent [maxAge] is [0]. *)
Record StaticOptions : Type := mkStaticOptions {
  index : string;
  dotfiles : string;
  etag : bool;
  maxAge : Z
}.

(** The [options] argument of [static]: each key is present or not. *)
Record RegistrationOptions : Type := mkRegistrationOptions {
  givenIndex : option string;
  givenDotfiles : option string;
  givenEtag : option bool;
  givenMaxAge : option Z
}.

Definition noOptions : RegistrationOptions :=
  {| givenIndex := None; givenDotfiles := None; givenEtag := None; givenMaxAge := None |}.

(** The default [options = {}] of [#serveStaticFile]. *)
Definition emptyOptions : StaticOptions :=
  {| index := EmptyString; dotfiles := EmptyString; etag := false; maxAge := 0 |}.

Record Mount : Type := mkMount {
  dirPath : string;
  options : StaticOptions
}.

(** [map.set(key, value)] on an insertion-ordered [Map]: an existing key
    keeps its place, a new key goes last. *)
Fixpoint mapSet (key : string) (value : Mount) (m : list (string * Mount))
  : list (string * Mount) :=
  match m with
  | [] => [(key, value)]
  | (k, v) :: m' =>
      if String.eqb k key then (k, value) :: m' else (k, v) :: mapSet key value m'
  end.

(** The literal built in [static]: the defaults first, then the spread of
    the given options, which overrides every key that is present. *)
Definition staticOptions (given : RegistrationOptions) : StaticOptions :=
  let index0 :=
    match givenIndex given with
    | Some v => if JsString.truthy v then v else "index.html"
    | None => "index.html"
    end in
  let dotfiles0 :=
    match givenDotfiles given with
    | Some v => if JsString.truthy v then v else "ignore"
    | None => "ignore"
    end in
  let etag0 :=
    match givenEtag given with
    | Some false => false
    | _ => true
    end in
  let maxAge0 :=
    match givenMaxAge given with
    | Some v => if v =? 0 then 0 else v
    | None => 0
    end in
  {| index := default index0 (givenIndex given);
     dotfiles := default dotfiles0 (givenDotfiles given);
     etag := default etag0 (givenEtag given);
     maxAge := default maxAge0 (givenMaxAge given) |}.

Definition dquote : string := String "034"%char EmptyString.

Section Server.

Variable fs : FileSystem.
Variable cwd : string.
(** [mime.lookup], from the [mime-types] package. *)
Variable mimeLookup : string -> option string.

(** [static(urlPath, dirPath, options)] on the registry [staticPaths]. *)
Definition static (urlPath dirPath : string) (given : RegistrationOptions)
    (staticPaths : list (string * Mount)) : error + list (string * Mount) :=
  if negb (JsString.truthy urlPath) || negb (JsString.truthy dirPath) then
    inl (TypeError "URL path and directory path are required")
  else
    inr (mapSet urlPath
           {| dirPath := Path.resolve cwd dirPath; options := staticOptions given |}
           staticPaths).

(** [await fs.promises.stat(p)] *)
Definition stat (p : string) : handler Stats :=
  match fs p with
  | inl (c, m) => throw (NodeError c m)
  | inr n => ret (statsOf n)
  end.

(** [fs.createReadStream(p, { start, end })], or the whole file when no
    range is given.  Node refuses bounds that are not non-negative
    integers, and a start after the end. *)
Definition createReadStream (p : string) (range : option (jsnum * jsnum))
  : handler (list Byte.byte) :=
  match range with
  | None => ret (contentOf (fs p))
  | Some (Num s, Num e) =>
      if (0 <=? s) && (0 <=? e) && (s <=? e)
      then ret (window s e (contentOf (fs p)))
      else throw (NodeError "ERR_OUT_OF_RANGE" "The value is out of range")
  | Some _ => throw (NodeError "ERR_OUT_OF_RANGE" "The value is out of range")
  end.

(** Lines 52-84 of [#serveStaticFile]: content headers, then the whole
    file or the requested byte window. *)
Definition sendContent (req : Request) (filePath : string)
    (options : StaticOptions) (stats : Stats) : handler jsval :=
  (let mimeType :=
     match mimeLookup filePath with
     | Some t => if JsString.truthy t then t else "application/octet-stream"
     | None => "application/octet-stream"
     end in
   setHeader "Content-Type" mimeType ;;
   setHeader "Content-Length" (JsNum.showZ (size stats)) ;;
   (if maxAge options =? 0 then ret tt
    else setHeader "Cache-Control"
           ("public, max-age=" ++ JsNum.showZ (maxAge options / 1000))) ;;
   match headers req !! "range" with
   | Some (String c range') =>
       let range := String c range' in
       let parts := JsString.split "-" (JsString.removeFirst "bytes=" range) in
       let start := JsNum.parseInt (nth 0 parts EmptyString) in
       let end_off :=
         if JsString.truthy (nth 1 parts EmptyString)
         then JsNum.parseInt (nth 1 parts EmptyString)
         else Num (size stats - 1) in
       if JsNum.geb start (Num (size stats)) || JsNum.geb end_off (Num (size stats))
       then
         setHeader "Content-Range" ("bytes */" ++ JsNum.showZ (size stats)) ;;
         status 416 ;; end_ ;;
         ret JsUndefined
       else
         setHeader "Content-Range"
           ("bytes " ++ JsNum.show start ++ "-" ++ JsNum.show end_off
              ++ "/" ++ JsNum.showZ (size stats)) ;;
         setHeader "Accept-Ranges" "bytes" ;;
         setHeader "Content-Length"
           (JsNum.show (JsNum.add (JsNum.sub end_off start) (Num 1))) ;;
         status 206 ;;
         stream <- createReadStream filePath (Some (start, end_off)) ;;
         pipe stream ;;
         ret JsUndefined
   | _ =>
       stream <- createReadStream filePath None ;;
       pipe stream ;;
       ret JsUndefined
   end)%handler.

(** The validator of line 43. *)
Definition etagOf (stats : Stats) : string :=
  "W/" ++ dquote ++ JsNum.showZ (size stats) ++ "-" ++ JsNum.showZ (mtime stats) ++ dquote.

(** [#serveStaticFile(req, res, filePath, options)] *)
Definition serveStaticFile (req : Request) (filePath : string)
    (options : StaticOptions) : handler jsval :=
  tryCatch
    (stats <- stat filePath ;;
     if negb (isFile stats) then throw (HttpError 404 "Not Found")
     else if etag options then
       setHeader "ETag" (etagOf stats) ;;
       if bool_decide (headers req !! "if-none-match" = Some (etagOf stats))
       then status 304 ;; end_ ;; ret JsUndefined
       else sendContent req filePath options stats
     else sendContent req filePath options stats)%handler
    (fun err =>
       if isENOENT err then throw (HttpError 404 "File Not Found")
       else throw err).

(** [err.status || 500] *)
Definition statusOr500 (err : error) : Z :=
  match status_of err with
  | Some s => if s =? 0 then 500 else s
  | None => 500
  end.

(** The identifier [req] inside [#enhanceResponse]: the arrow functions
    bind [filePath], [options], [filename], [absolutePath] and [stats],
    the method binds [res], the module binds its imports and the class;
    none binds [req], so the name is looked up among the globals and its
    use throws when no global of that name exists. *)
Definition resolveReq (globalReq : option Request) : handler Request :=
  match globalReq with
  | Some req => ret req
  | None => throw (ReferenceError "req is not defined")
  end.

(** [res.sendFile(filePath, options)] *)
Definition sendFile (globalReq : option Request) (filePath : string)
    (options : StaticOptions) : handler jsval :=
  tryCatch
    (let absolutePath := Path.resolve cwd filePath in
     req <- resolveReq globalReq ;;
     serveStaticFile req absolutePath options ;;
     ret JsUndefined)%handler
    (fun err => throw (HttpError (statusOr500 err) (message_of err))).

(** [res.download(filePath, filename)] *)
Definition download (globalReq : option Request) (filePath : string)
    (filename : option string) : handler jsval :=
  tryCatch
    (let absolutePath := Path.resolve cwd filePath in
     stats <- stat absolutePath ;;
     if negb (isFile stats) then throw (HttpError 404 "File Not Found")
     else
       let name :=
         match filename with
         | Some f => if JsString.truthy f then f else Path.basename filePath
         | None => Path.basename filePath
         end in
       setHeader "Content-Disposition"
         ("attachment; filename=" ++ dquote ++ name ++ dquote) ;;
       req <- resolveReq globalReq ;;
       serveStaticFile req absolutePath emptyOptions ;;
       ret JsUndefined)%handler
    (fun err => throw (HttpError (statusOr500 err) (message_of err))).

(** The body of the [try] block of [#handleStaticFiles], lines 139-160. *)
Definition serveFromMount (req : Request) (absolutePath : string)
    (options : StaticOptions) : handler jsval :=
  (stats <- stat absolutePath ;;
   if isDirectory stats then
     if JsString.truthy (index options)
     then serveStaticFile req (Path.join absolutePath (index options)) options
     else throw (HttpError 404 "Not Found")
   else if JsString.startsWith "." (Path.basename absolutePath) then
     if String.eqb (dotfiles options) "deny" then throw (HttpError 403 "Forbidden")
     else if String.eqb (dotfiles options) "ignore" then throw (HttpError 404 "Not Found")
     else serveStaticFile req absolutePath options
   else serveStaticFile req absolutePath options)%handler.

(** [#handleStaticFiles(req, res)]: the loop over [this.staticPaths], in
    insertion order. *)
Fixpoint handleStaticFiles (req : Request) (staticPaths : list (string * Mount))
  : handler jsval :=
  match staticPaths with
  | [] => ret (JsBool false)
  | (urlPath, mount) :: rest =>
      if JsString.startsWith urlPath (path req) then
        let relativePath := JsString.slice (String.length urlPath) (path req) in
        let absolutePath := Path.join (dirPath mount) relativePath in
        if negb (JsString.startsWith (dirPath mount) absolutePath) then
          throw (HttpError 403 "Forbidden")
        else
          tryCatch (serveFromMount req absolutePath (options mount))
            (fun err =>
               if isENOENT err then handleStaticFiles req rest
               else throw err)
      else handleStaticFiles req rest
  end.


End Server.

(** * Vocabulary of the statements *)

(** A string made of decimal digits only. *)
Fixpoint allDigits (s : string) : bool :=
  match s with
  | EmptyString => true
  | String c s' => JsNum.isDigit c && allDigits s'
  end.

(** How many digits [digitsOf] writes. *)
Fixpoint width (fuel : nat) (n : Z) : Z :=
  match fuel with
  | O => 1
  | S fuel' => if n <? 10 then 1 else 1 + width fuel' (n / 10)
  end.

(** The response an outcome leaves behind, returned or thrown. *)
Definition responseOf {A} (o : outcome A) : Response :=
  match o with
  | Return _ res => res
  | Throw _ res => res
  end.

(** The header value [bytes=<start>-<end>], with or without an end. *)
Definition rangeHeader (start : Z) (end_off : option Z) : string :=
  "bytes=" ++ JsNum.showZ start ++ "-"
    ++ match end_off with
       | Some e => JsNum.showZ e
       | None => EmptyString
       end.

(** The last offset of a range over a file of [sz] bytes: the given one,
    or the last byte of the file. *)
Definition lastOffset (sz : Z) (end_off : option Z) : Z :=
  match end_off with
  | Some e => e
  | None => sz - 1
  end.

(** No [304] short-circuit: validators are off, or the request does not
    carry the current one. *)
Definition notFresh (req : Request) (options : StaticOptions) (stats : Stats) : Prop :=
  etag options = true -> headers req !! "if-none-match" <> Some (etagOf stats).

(** The response as it is when [sendContent] starts: the validator set
    when validators are on. *)
Definition withValidator (options : StaticOptions) (stats : Stats) (res : Response)
  : Response :=
  if etag options
  then {| statusCode := statusCode res;
          outHeaders := <["ETag" := etagOf stats]> (outHeaders res);
          body := body res; finished := finished res |}
  else res.

(** The response after the content headers of lines 53-59. *)
Definition contentHeaders (mimeLookup : string -> option string) (filePath : string)
    (options : StaticOptions) (stats : Stats) (res : Response) : Response :=
  let mimeType :=
    match mimeLookup filePath with
    | Some t => if JsString.truthy t then t else "application/octet-stream"
    | None => "application/octet-stream"
    end in
  let h := <["Content-Length" := JsNum.showZ (size stats)]>
             (<["Content-Type" := mimeType]> (outHeaders res)) in
  {| statusCode := statusCode res;
     outHeaders :=
       if maxAge options =? 0 then h
       else <["Cache-Control" :=
               "public, max-age=" ++ JsNum.showZ (maxAge options / 1000)]> h;
     body := body res; finished := finished res |}.

(** [p] is the directory [root] or lies below it. *)
Definition isWithin (root p : string) : bool :=
  String.eqb p root || JsString.startsWith (root ++ "/") p.

(** A byte range as the data model has it: [0 <= start <= end < size]. *)
Definition validByteRange (start end_off : jsnum) (sz : Z) : Prop :=
  exists s e, start = Num s /\ end_off = Num e /\ 0 <= s <= e /\ e < sz.

(** Reading a signed decimal integer: the inverse of [showZ]. *)
Definition readZ (s : string) : Z * string :=
  match s with
  | String "-" u => let '(v, rest) := JsNum.readDigits 0 u in (- v, rest)
  | _ => JsNum.readDigits 0 s
  end.

(** ** A sample site *)

Definition bytesOf (s : string) : list Byte.byte := list_byte_of_string s.

(** A web root with an index page and a dotfile, a sibling directory
    whose name extends the root's, and a second root. *)
Definition siteFiles : FileSystem := fun p =>
  if String.eqb p "/var/www" || String.eqb p "/var/www/" then inr Directory
  else if String.eqb p "/var/www/index.html" then
    inr (RegularFile (bytesOf "<h1>hi</h1>") 1700000000000)
  else if String.eqb p "/var/www/.env" then
    inr (RegularFile (bytesOf "KEY=1") 1700000000001)
  else if String.eqb p "/var/www-private/key" then
    inr (RegularFile (bytesOf "secret") 1700000000002)
  else if String.eqb p "/srv/fallback/static/.env" then
    inr (RegularFile (bytesOf "public") 1700000000003)
  else inl ("ENOENT", "ENOENT: no such file or directory").

Definition siteMime : string -> option string := fun p =>
  if String.eqb p "/var/www/index.html" then Some "text/html" else None.

Definition siteMount (given : RegistrationOptions) : Mount :=
  {| dirPath := "/var/www"; options := staticOptions given |}.

Definition get (p : string) : Request := {| path := p; headers := ∅ |}.

Definition getRange (p range : string) : Request :=
  {| path := p; headers := {[ "range" := range ]} |}.

(** A second mount, on every path, that allows dotfiles. *)
Definition fallbackMount : Mount :=
  {| dirPath := "/srv/fallback";
     options := staticOptions
                  {| givenIndex := None; givenDotfiles := Some "allow";
                     givenEtag := None; givenMaxAge := None |} |}.

(** The path a mount resolves a request to. *)
Definition resolved (urlPath : string) (mount : Mount) (req : Request) : string :=
  Path.join (dirPath mount) (JsString.slice (String.length urlPath) (path req)).

(** The request is for this mount and passes its containment guard. *)
Definition accepted (urlPath : string) (mount : Mount) (req : Request) : Prop :=
  JsString.startsWith urlPath (path req) = true
  /\ JsString.startsWith (dirPath mount) (resolved urlPath mount req) = true.

(** ** The registry as a map *)

(** [map.get(key)] on the registry. *)
Definition mapGet (key : string) (m : list (string * Mount)) : option Mount :=
  match List.find (fun kv => String.eqb (fst kv) key) m with
  | Some kv => Some (snd kv)
  | None => None
  end.

(** The prefixes of the registry, in iteration order. *)
Definition keys (m : list (string * Mount)) : list string := List.map fst m.

(** A mount the loop passes over for this request: its prefix does not
    match, or the path it resolves the request to is missing. *)
Definition passedOver (fs : FileSystem) (req : Request) (entry : string * Mount) : Prop :=
  JsString.startsWith (fst entry) (path req) = false
  \/ (accepted (fst entry) (snd entry) req
      /\ exists m, fs (resolved (fst entry) (snd entry) req) = inl ("ENOENT", m)).



(** A property of the response that a handler keeps, returning or
    throwing. *)
Definition preserves {A} (Q : Response -> Prop) (m : handler A) : Prop :=
  forall res, Q res -> Q (responseOf (m res)).

(** The headers and the status codes the static handlers write. *)
Definition writtenHeaders : list string :=
  ["ETag"; "Content-Type"; "Content-Length"; "Cache-Control"; "Content-Range";
   "Accept-Ranges"].

Definition writtenStatuses : list Z := [304; 416; 206].


(** A web root whose index file has a dot in front of its name. *)
Definition dotIndexFiles : FileSystem := fun p =>
  if String.eqb p "/var/www" || String.eqb p "/var/www/" then inr Directory
  else if String.eqb p "/var/www/.index.html" then
    inr (RegularFile (bytesOf "HIDDEN") 1700000000004)
  else if String.eqb p "/var/www/-old/x" then
    inr (RegularFile (bytesOf "old") 1700000000005)
  else inl ("ENOENT", "ENOENT: no such file or directory").

Definition dotIndexMount : Mount :=
  {| dirPath := "/var/www";
     options := staticOptions
                  {| givenIndex := Some ".index.html"; givenDotfiles := Some "deny";
                     givenEtag := None; givenMaxAge := None |} |}.

(** [name.toLowerCase()], on one-byte characters: the form under which
    Node compares header names. *)
Definition lowerAscii (c : ascii) : ascii :=
  let n := N_of_ascii c in
  if ((65 <=? n) && (n <=? 90))%N then ascii_of_N (n + 32) else c.

Fixpoint toLowerCase (s : string) : string :=
  match s with
  | EmptyString => EmptyString
  | String c s' => String (lowerAscii c) (toLowerCase s')
  end.

(** * Properties *)

(** ** The model on sample inputs *)

Example showZ_samples :
  JsNum.showZ 0 = "0" /\ JsNum.showZ 1024 = "1024" /\ JsNum.showZ (-37) = "-37"
  /\ JsNum.showZ 9 = "9" /\ JsNum.showZ 10 = "10" /\ JsNum.showZ 1700000000000 = "1700000000000".
Proof. repeat split; reflexivity. Qed.

Example parseInt_samples :
  JsNum.parseInt "12" = Num 12 /\ JsNum.parseInt EmptyString = NaN
  /\ JsNum.parseInt " 7x" = Num 7 /\ JsNum.parseInt "abc" = NaN
  /\ JsNum.parseInt "-4" = Num (-4).
Proof. repeat split; reflexivity. Qed.

Example split_samples :
  JsString.split "-" "5-2" = ["5"; "2"] /\ JsString.split "-" "5-" = ["5"; EmptyString]
  /\ JsString.split "-" "abc" = ["abc"] /\ JsString.split "-" "-5" = [EmptyString; "5"]
  /\ JsString.removeFirst "bytes=" "bytes=0-0" = "0-0".
Proof. repeat split; reflexivity. Qed.

Example path_samples :
  Path.join "/var/www" "/css/site.css" = "/var/www/css/site.css"
  /\ Path.join "/var/www" "/../../etc/passwd" = "/etc/passwd"
  /\ Path.join "/var/www" "/a/./b/../c/" = "/var/www/a/c/"
  /\ Path.join "/var/www" EmptyString = "/var/www"
  /\ Path.join "/var/www" "/../www-private/key" = "/var/www-private/key"
  /\ Path.resolve "/srv/app" "public" = "/srv/app/public"
  /\ Path.resolve "/srv/app" "/var/www/" = "/var/www"
  /\ Path.resolve "/srv/app" "../x/./y" = "/srv/x/y"
  /\ Path.basename "/var/www/.env" = ".env"
  /\ Path.basename "/var/www/dir/" = "dir"
  /\ Path.normalize "../a/../../b" = "../../b".
Proof. repeat split; reflexivity. Qed.

(** ** Strings *)

Lemma append_assoc (a b c : string) : (a ++ b) ++ c = a ++ (b ++ c).
Proof.
  induction a as [| x a IH]; simpl; [reflexivity | f_equal; exact IH].
Qed.

Lemma append_nil_r (a : string) : a ++ EmptyString = a.
Proof.
  induction a as [| x a IH]; simpl; [reflexivity | f_equal; exact IH].
Qed.

Lemma append_inv_head (a b c : string) : a ++ b = a ++ c -> b = c.
Proof.
  induction a as [| x a IH]; simpl; intros H;
    [exact H | injection H; auto].
Qed.

(** ** Decimal printing and reading *)

Section Decimal.

Import JsNum.

Lemma isDigit_not_special c :
  isDigit c = true ->
  isWhiteSpace c = false /\ c <> "-"%char /\ c <> "+"%char /\ c <> "/"%char
  /\ c <> "034"%char.
Proof.
  destruct c as [[] [] [] [] [] [] [] []]; cbv; intros H;
    try discriminate H; repeat split; discriminate.
Qed.

Lemma digitChar_digit d :
  0 <= d < 10 -> isDigit (digitChar d) = true /\ digitValue (digitChar d) = d.
Proof.
  intros Hd.
  assert (Hcases : d = 0 \/ d = 1 \/ d = 2 \/ d = 3 \/ d = 4 \/ d = 5
                   \/ d = 6 \/ d = 7 \/ d = 8 \/ d = 9) by lia.
  repeat (destruct Hcases as [-> | Hcases]; [split; reflexivity |]).
  subst d; split; reflexivity.
Qed.

Lemma width_pos fuel n : 0 < width fuel n.
Proof.
  revert n; induction fuel as [| fuel IH]; intros n; simpl; [lia |].
  destruct (n <? 10); [lia | specialize (IH (n / 10)); lia].
Qed.

Lemma digitsOf_app fuel n acc :
  digitsOf fuel n acc = digitsOf fuel n EmptyString ++ acc.
Proof.
  revert n acc; induction fuel as [| fuel IH]; intros n acc; cbn [digitsOf];
    [reflexivity |].
  destruct (n <? 10); [reflexivity |].
  rewrite (IH _ (String _ acc)), (IH _ (String _ EmptyString)).
  rewrite append_assoc. reflexivity.
Qed.

Lemma digitsOf_allDigits fuel n acc :
  0 <= n -> allDigits acc = true -> allDigits (digitsOf fuel n acc) = true.
Proof.
  assert (Hstep : forall m acc', 0 <= m -> allDigits acc' = true ->
            allDigits (String (digitChar (m mod 10)) acc') = true).
  { intros m acc' Hm Hacc'. cbn [allDigits].
    destruct (digitChar_digit (m mod 10)) as [-> _]; [| exact Hacc'].
    apply Z.mod_pos_bound; lia. }
  revert n acc; induction fuel as [| fuel IH]; intros n acc Hn Hacc;
    cbn [digitsOf].
  - now apply Hstep.
  - destruct (n <? 10); [now apply Hstep |].
    apply IH; [apply Z.div_pos; lia | now apply Hstep].
Qed.

Lemma digitsOf_nonempty fuel n acc : digitsOf fuel n acc <> EmptyString.
Proof.
  revert n acc; induction fuel as [| fuel IH]; intros n acc; cbn [digitsOf];
    [discriminate |].
  destruct (n <? 10); [discriminate | apply IH].
Qed.

Lemma readDigits_digit d a acc :
  0 <= d < 10 ->
  readDigits a (String (digitChar d) acc) = readDigits (10 * a + d) acc.
Proof.
  intros Hd. cbn [readDigits].
  destruct (digitChar_digit d Hd) as [-> ->]. reflexivity.
Qed.

(** Reading back what [digitsOf] wrote. *)
Lemma readDigits_digitsOf fuel n a acc :
  0 <= n < 10 ^ (Z.of_nat fuel + 1) ->
  readDigits a (digitsOf fuel n acc) = readDigits (a * 10 ^ width fuel n + n) acc.
Proof.
  revert n a acc; induction fuel as [| fuel IH]; intros n a acc Hn.
  - change (10 ^ (Z.of_nat 0 + 1)) with 10 in Hn.
    cbn [digitsOf width]. rewrite Z.mod_small by lia.
    rewrite readDigits_digit by lia. f_equal. lia.
  - cbn [digitsOf width]. destruct (Z.ltb_spec n 10) as [Hlt | Hge].
    + rewrite Z.mod_small by lia.
      rewrite readDigits_digit by lia. f_equal. lia.
    + assert (Hdiv : 0 <= n / 10 < 10 ^ (Z.of_nat fuel + 1)).
      { split; [apply Z.div_pos; lia |].
        apply Z.div_lt_upper_bound; [lia |].
        replace (Z.of_nat (S fuel) + 1) with (1 + (Z.of_nat fuel + 1)) in Hn by lia.
        rewrite Z.pow_add_r in Hn by lia. lia. }
      rewrite (IH _ _ _ Hdiv).
      rewrite readDigits_digit by (apply Z.mod_pos_bound; lia).
      f_equal.
      pose proof (width_pos fuel (n / 10)) as Hw.
      rewrite Z.pow_add_r by lia.
      pose proof (Z.div_mod n 10 ltac:(lia)) as Hdm. lia.
Qed.

Lemma log2_fuel n : 0 <= n -> n < 10 ^ (Z.of_nat (Z.to_nat (Z.log2 n)) + 1).
Proof.
  intros Hn. rewrite Z2Nat.id by apply Z.log2_nonneg.
  destruct (Z.eq_dec n 0) as [-> | Hnz]; [reflexivity |].
  pose proof (Z.log2_spec n ltac:(lia)) as [_ Hup].
  eapply Z.lt_le_trans; [exact Hup |].
  rewrite <- Z.add_1_r.
  apply Z.pow_le_mono_l. lia.
Qed.

(** [showZ] of a non-negative integer: digits only, and not empty. *)
Lemma showZ_allDigits n : 0 <= n -> allDigits (showZ n) = true.
Proof.
  intros Hn. unfold showZ.
  destruct (Z.ltb_spec n 0); [lia |]. now apply digitsOf_allDigits.
Qed.

Lemma showZ_nonempty n : showZ n <> EmptyString.
Proof.
  unfold showZ. destruct (n <? 0); [discriminate | apply digitsOf_nonempty].
Qed.

Lemma showZ_truthy n : JsString.truthy (showZ n) = true.
Proof.
  pose proof (showZ_nonempty n). destruct (showZ n); [congruence | reflexivity].
Qed.

(** Reading the digits of [showZ n] gives [n] back and stops at what
    follows them. *)
Lemma readDigits_showZ n rest :
  0 <= n -> readDigits 0 (showZ n ++ rest) = readDigits n rest.
Proof.
  intros Hn. unfold showZ. destruct (Z.ltb_spec n 0); [lia |].
  rewrite <- digitsOf_app, readDigits_digitsOf; [f_equal; lia |].
  split; [exact Hn | now apply log2_fuel].
Qed.

Lemma parseInt_showZ n : 0 <= n -> parseInt (showZ n) = Num n.
Proof.
  intros Hn.
  pose proof (showZ_allDigits n Hn) as Hall.
  pose proof (readDigits_showZ n EmptyString Hn) as Hread.
  rewrite append_nil_r in Hread.
  pose proof (showZ_nonempty n) as Hne.
  destruct (showZ n) as [| c s] eqn:Hs; [congruence |].
  simpl in Hall. apply andb_prop in Hall as [Hc _].
  destruct (isDigit_not_special c Hc) as (Hws & Hminus & Hplus & _).
  unfold parseInt. simpl skipWhiteSpace. rewrite Hws.
  destruct c as [b0 b1 b2 b3 b4 b5 b6 b7].
  destruct b0, b1, b2, b3, b4, b5, b6, b7; try discriminate Hc;
    try congruence; cbn [startsWithDigit]; rewrite ?Hc, Hread; reflexivity.
Qed.

End Decimal.

(** ** Parsing a well-formed range header *)

Section RangeHeader.

Import JsNum.

Lemma split_digits_sep s t :
  allDigits s = true ->
  JsString.split "-" (s ++ String "-" t) = s :: JsString.split "-" t.
Proof.
  induction s as [| c s IH]; intros Hall; [reflexivity |].
  cbn [allDigits] in Hall. apply andb_prop in Hall as [Hc Hs].
  destruct (isDigit_not_special c Hc) as (_ & Hminus & _).
  simpl. rewrite (proj2 (Ascii.eqb_neq c "-") Hminus), (IH Hs). reflexivity.
Qed.

Lemma split_digits s : allDigits s = true -> JsString.split "-" s = [s].
Proof.
  induction s as [| c s IH]; intros Hall; [reflexivity |].
  cbn [allDigits] in Hall. apply andb_prop in Hall as [Hc Hs].
  destruct (isDigit_not_special c Hc) as (_ & Hminus & _).
  simpl. rewrite (proj2 (Ascii.eqb_neq c "-") Hminus), (IH Hs). reflexivity.
Qed.

Lemma removeFirst_prefix x : JsString.removeFirst "bytes=" ("bytes=" ++ x) = x.
Proof. reflexivity. Qed.

(** The two parts the handler reads from [bytes=<start>-<end>]. *)
Lemma rangeHeader_parts start end_off :
  0 <= start ->
  (forall e, end_off = Some e -> 0 <= e) ->
  JsString.split "-" (JsString.removeFirst "bytes=" (rangeHeader start end_off))
  = [showZ start; match end_off with Some e => showZ e | None => EmptyString end].
Proof.
  intros Hs He. unfold rangeHeader. rewrite removeFirst_prefix.
  change (showZ start ++ "-" ++ ?t) with (showZ start ++ String "-" t).
  rewrite split_digits_sep by now apply showZ_allDigits.
  f_equal. apply split_digits.
  destruct end_off as [e |]; [apply showZ_allDigits; now apply He | reflexivity].
Qed.

Lemma rangeHeader_truthy start end_off :
  exists c s, rangeHeader start end_off = String c s.
Proof. unfold rangeHeader. simpl. eauto. Qed.

(** The bounds the handler computes from [bytes=<start>-<end>]. *)
Lemma rangeHeader_bounds start end_off sz :
  0 <= start ->
  (forall e, end_off = Some e -> 0 <= e) ->
  let parts := JsString.split "-" (JsString.removeFirst "bytes=" (rangeHeader start end_off)) in
  parseInt (nth 0 parts EmptyString) = Num start
  /\ (if JsString.truthy (nth 1 parts EmptyString)
      then parseInt (nth 1 parts EmptyString)
      else Num (sz - 1)) = Num (lastOffset sz end_off).
Proof.
  intros Hs He parts. subst parts. rewrite rangeHeader_parts by assumption.
  cbn [nth]. split; [now apply parseInt_showZ |].
  destruct end_off as [e |]; cbn [lastOffset].
  - rewrite showZ_truthy. apply parseInt_showZ. now apply He.
  - reflexivity.
Qed.

End RangeHeader.

(** ** The per-file pipeline *)

Section Pipeline.

Variable fs : FileSystem.
Variable mimeLookup : string -> option string.

Ltac run_handler :=
  unfold bind, setHeader, status, end_, pipe, ret, throw; cbv beta iota.

(** The three content headers, whatever follows them. *)
Lemma sendContent_headers req p options stats res :
  sendContent fs mimeLookup req p options stats res
  = match headers req !! "range" with
    | Some (String c range') =>
        let range := String c range' in
        let parts := JsString.split "-" (JsString.removeFirst "bytes=" range) in
        let start := JsNum.parseInt (nth 0 parts EmptyString) in
        let end_off :=
          if JsString.truthy (nth 1 parts EmptyString)
          then JsNum.parseInt (nth 1 parts EmptyString)
          else Num (size stats - 1) in
        if JsNum.geb start (Num (size stats)) || JsNum.geb end_off (Num (size stats))
        then
          (setHeader "Content-Range" ("bytes */" ++ JsNum.showZ (size stats)) ;;
           status 416 ;; end_ ;;
           ret JsUndefined)%handler
        else
          (setHeader "Content-Range"
             ("bytes " ++ JsNum.show start ++ "-" ++ JsNum.show end_off
                ++ "/" ++ JsNum.showZ (size stats)) ;;
           setHeader "Accept-Ranges" "bytes" ;;
           setHeader "Content-Length"
             (JsNum.show (JsNum.add (JsNum.sub end_off start) (Num 1))) ;;
           status 206 ;;
           stream <- createReadStream fs p (Some (start, end_off)) ;;
           pipe stream ;;
           ret JsUndefined)%handler
    | _ =>
        (stream <- createReadStream fs p None ;;
         pipe stream ;;
         ret JsUndefined)%handler
    end (contentHeaders mimeLookup p options stats res).
Proof.
  unfold sendContent, contentHeaders.
  unfold bind at 1 2 3. unfold setHeader at 1 2. cbv beta iota.
  destruct (maxAge options =? 0); reflexivity.
Qed.

(** A well-formed range that reaches past the file: [416], the size in
    [Content-Range], nothing written. *)
Lemma sendContent_unsatisfiable req p options stats start end_off res :
  headers req !! "range" = Some (rangeHeader start end_off) ->
  0 <= start ->
  (forall e, end_off = Some e -> 0 <= e) ->
  size stats <= start \/ size stats <= lastOffset (size stats) end_off ->
  sendContent fs mimeLookup req p options stats res
  = Return JsUndefined
      {| statusCode := 416;
         outHeaders :=
           <["Content-Range" := "bytes */" ++ JsNum.showZ (size stats)]>
             (outHeaders (contentHeaders mimeLookup p options stats res));
         body := body res;
         finished := true |}.
Proof.
  intros Hrange Hs He Hunsat.
  rewrite sendContent_headers, Hrange.
  destruct (rangeHeader_truthy start end_off) as (c & t & Heq).
  rewrite Heq, <- Heq. cbv zeta.
  destruct (rangeHeader_bounds start end_off (size stats) Hs He) as [-> ->].
  cbn [JsNum.geb].
  replace ((size stats <=? start) || (size stats <=? lastOffset (size stats) end_off))
    with true; [reflexivity |].
  symmetry. apply orb_true_iff. rewrite !Z.leb_le. exact Hunsat.
Qed.

(** A well-formed range inside the file: [206] and the byte window. *)
Lemma sendContent_partial req p options stats start end_off res :
  headers req !! "range" = Some (rangeHeader start end_off) ->
  (forall e, end_off = Some e -> 0 <= e) ->
  0 <= start <= lastOffset (size stats) end_off ->
  lastOffset (size stats) end_off < size stats ->
  sendContent fs mimeLookup req p options stats res
  = Return JsUndefined
      {| statusCode := 206;
         outHeaders :=
           <["Content-Length" :=
               JsNum.showZ (lastOffset (size stats) end_off - start + 1)]>
             (<["Accept-Ranges" := "bytes"]>
                (<["Content-Range" :=
                     "bytes " ++ JsNum.showZ start ++ "-"
                       ++ JsNum.showZ (lastOffset (size stats) end_off)
                       ++ "/" ++ JsNum.showZ (size stats)]>
                   (outHeaders (contentHeaders mimeLookup p options stats res))));
         body :=
           body res ++ window start (lastOffset (size stats) end_off) (contentOf (fs p));
         finished := true |}.
Proof.
  intros Hrange He [Hs Hle] Hlt.
  rewrite sendContent_headers, Hrange.
  destruct (rangeHeader_truthy start end_off) as (c & t & Heq).
  rewrite Heq, <- Heq. cbv zeta.
  destruct (rangeHeader_bounds start end_off (size stats) Hs He) as [-> ->].
  cbn [JsNum.geb JsNum.show JsNum.add JsNum.sub].
  replace ((size stats <=? start) || (size stats <=? lastOffset (size stats) end_off))
    with false
    by (symmetry; apply orb_false_iff; rewrite !Z.leb_gt; lia).
  run_handler. unfold createReadStream.
  replace ((0 <=? start) && (0 <=? lastOffset (size stats) end_off)
           && (start <=? lastOffset (size stats) end_off))
    with true
    by (symmetry; rewrite !andb_true_iff, !Z.leb_le; lia).
  reflexivity.
Qed.

(** No range header, or an empty one: the whole file. *)
Lemma sendContent_full req p options stats res :
  headers req !! "range" = None \/ headers req !! "range" = Some EmptyString ->
  sendContent fs mimeLookup req p options stats res
  = Return JsUndefined
      {| statusCode := statusCode res;
         outHeaders := outHeaders (contentHeaders mimeLookup p options stats res);
         body := body res ++ contentOf (fs p);
         finished := true |}.
Proof.
  intros Hrange. rewrite sendContent_headers.
  destruct Hrange as [-> | ->]; reflexivity.
Qed.

(** [createReadStream] throws nothing but a range error. *)
Lemma createReadStream_throw p range res err res' :
  createReadStream fs p range res = Throw err res' ->
  isENOENT err = false /\ res' = res.
Proof.
  unfold createReadStream, ret, throw.
  destruct range as [[[| s] [| e]] |]; try (intros [= <- <-]; now split);
    try discriminate.
  destruct ((0 <=? s) && (0 <=? e) && (s <=? e));
    [discriminate | intros [= <- <-]; now split].
Qed.

Lemma createReadStream_return p range res bytes res' :
  createReadStream fs p range res = Return bytes res' -> res' = res.
Proof.
  unfold createReadStream, ret, throw.
  destruct range as [[[| s] [| e]] |]; try discriminate;
    try (intros [= _ <-]; reflexivity).
  destruct ((0 <=? s) && (0 <=? e) && (s <=? e));
    [intros [= _ <-]; reflexivity | discriminate].
Qed.

(** What [sendContent] can do: return [undefined] with the response
    ended, or throw a range error. *)
Lemma sendContent_outcome req p options stats res :
  match sendContent fs mimeLookup req p options stats res with
  | Return v res' => v = JsUndefined /\ finished res' = true
  | Throw err _ => isENOENT err = false
  end.
Proof.
  rewrite sendContent_headers.
  set (res0 := contentHeaders mimeLookup p options stats res). clearbody res0.
  destruct (headers req !! "range") as [[| c range'] |].
  - run_handler.
    destruct (createReadStream fs p None res0) as [bytes r | err r] eqn:Hcrs.
    + now split.
    + now apply createReadStream_throw in Hcrs.
  - cbv zeta.
    match goal with |- context [if ?b then _ else _] => destruct b end.
    + run_handler. now split.
    + run_handler.
      match goal with
      | |- context [createReadStream fs p ?rg ?r0] =>
          destruct (createReadStream fs p rg r0) as [bytes r | err r] eqn:Hcrs
      end.
      * now split.
      * now apply createReadStream_throw in Hcrs.
  - run_handler.
    destruct (createReadStream fs p None res0) as [bytes r | err r] eqn:Hcrs.
    + now split.
    + now apply createReadStream_throw in Hcrs.
Qed.

(** A regular file whose validator the request does not carry: the
    validator is set, when validators are on, and the content follows. *)
Lemma serveStaticFile_regular req p options content mtimeMs res :
  fs p = inr (RegularFile content mtimeMs) ->
  notFresh req options (statsOf (RegularFile content mtimeMs)) ->
  serveStaticFile fs mimeLookup req p options res
  = sendContent fs mimeLookup req p options (statsOf (RegularFile content mtimeMs))
      (withValidator options (statsOf (RegularFile content mtimeMs)) res).
Proof.
  intros Hfs Hfresh.
  set (stats := statsOf (RegularFile content mtimeMs)) in *.
  pose proof (sendContent_outcome req p options stats (withValidator options stats res))
    as Hout.
  unfold serveStaticFile, tryCatch, stat. rewrite Hfs. fold stats.
  unfold bind at 1. unfold ret at 1. cbn [isFile statsOf stats negb].
  unfold withValidator in *. destruct (etag options) eqn:Hetag.
  - unfold bind at 1. unfold setHeader at 1.
    rewrite bool_decide_eq_false_2 by exact (Hfresh Hetag).
    destruct (sendContent _ _ _ _ _ _ _) as [v r | err r]; [reflexivity |].
    now rewrite Hout.
  - destruct (sendContent _ _ _ _ _ _ _) as [v r | err r]; [reflexivity |].
    now rewrite Hout.
Qed.

(** A regular file whose validator the request carries: [304], the
    validator, nothing written. *)
Lemma serveStaticFile_fresh req p options content mtimeMs res :
  fs p = inr (RegularFile content mtimeMs) ->
  etag options = true ->
  headers req !! "if-none-match" = Some (etagOf (statsOf (RegularFile content mtimeMs))) ->
  serveStaticFile fs mimeLookup req p options res
  = Return JsUndefined
      {| statusCode := 304;
         outHeaders :=
           <["ETag" := etagOf (statsOf (RegularFile content mtimeMs))]> (outHeaders res);
         body := body res;
         finished := true |}.
Proof.
  intros Hfs Hetag Hmatch.
  unfold serveStaticFile, tryCatch, stat. rewrite Hfs.
  unfold bind at 1. unfold ret at 1. cbn [isFile statsOf negb].
  rewrite Hetag. unfold bind at 1. unfold setHeader at 1.
  rewrite bool_decide_eq_true_2 by exact Hmatch.
  reflexivity.
Qed.

(** What [#serveStaticFile] can do: return [undefined] with the response
    ended, or throw something that is not an [ENOENT]. *)
Lemma serveStaticFile_outcome req p options res :
  match serveStaticFile fs mimeLookup req p options res with
  | Return v res' => v = JsUndefined /\ finished res' = true
  | Throw err _ => isENOENT err = false
  end.
Proof.
  unfold serveStaticFile, tryCatch, stat.
  destruct (fs p) as [[c m] | n].
  - unfold bind, throw. destruct (isENOENT (NodeError c m)) eqn:Hc; [reflexivity | exact Hc].
  - unfold bind at 1. unfold ret at 1.
    destruct (isFile (statsOf n)); cbn [negb]; [| reflexivity].
    destruct (etag options).
    + unfold bind at 1. unfold setHeader at 1.
      destruct (bool_decide _).
      * run_handler. now split.
      * match goal with
        | |- context [sendContent fs mimeLookup req p options ?st ?r0] =>
            pose proof (sendContent_outcome req p options st r0) as Hout;
            destruct (sendContent fs mimeLookup req p options st r0)
        end; [exact Hout | now rewrite Hout].
    + match goal with
      | |- context [sendContent fs mimeLookup req p options ?st ?r0] =>
          pose proof (sendContent_outcome req p options st r0) as Hout;
          destruct (sendContent fs mimeLookup req p options st r0)
      end; [exact Hout | now rewrite Hout].
Qed.

(** A missing file is reported as a [404], not as the [ENOENT] it was. *)
Lemma serveStaticFile_missing req p options m res :
  fs p = inl ("ENOENT", m) ->
  serveStaticFile fs mimeLookup req p options res
  = Throw (HttpError 404 "File Not Found") res.
Proof.
  intros Hfs. unfold serveStaticFile, tryCatch, stat. rewrite Hfs. reflexivity.
Qed.

(** What is not a regular file is a [404]. *)
Lemma serveStaticFile_not_file req p options n res :
  fs p = inr n -> isFile (statsOf n) = false ->
  serveStaticFile fs mimeLookup req p options res
  = Throw (HttpError 404 "Not Found") res.
Proof.
  intros Hfs Hn. unfold serveStaticFile, tryCatch, stat. rewrite Hfs.
  unfold bind at 1. unfold ret at 1. rewrite Hn. reflexivity.
Qed.

End Pipeline.

(** ** Containment in the mount root *)

(** A resolved path that does not begin with the root's string is
    refused, whatever the file system holds. *)
Lemma handleStaticFiles_forbidden fs mimeLookup req urlPath mount rest res :
  JsString.startsWith urlPath (path req) = true ->
  JsString.startsWith (dirPath mount)
    (Path.join (dirPath mount) (JsString.slice (String.length urlPath) (path req)))
  = false ->
  handleStaticFiles fs mimeLookup req ((urlPath, mount) :: rest) res
  = Throw (HttpError 403 "Forbidden") res.
Proof.
  intros Hmatch Hout. cbn [handleStaticFiles]. rewrite Hmatch, Hout. reflexivity.
Qed.

(** C1, at the failing input: the mount [/static] serves [/var/www]; the
    request [/static/../www-private/key] resolves to
    [/var/www-private/key], which is neither the root nor below it, yet
    the answer is [200] with the bytes of that file.  The guard compares
    strings, and the sibling's name begins with the root's. *)
Theorem C1_sibling_directory_escapes_root :
  let req := get "/static/../www-private/key" in
  let absolutePath := Path.join "/var/www" (JsString.slice 7 (path req)) in
  absolutePath = "/var/www-private/key"
  /\ isWithin "/var/www" absolutePath = false
  /\ exists res',
      handleStaticFiles siteFiles siteMime req [("/static", siteMount noOptions)]
        freshResponse
      = Return JsUndefined res'
      /\ statusCode res' = 200
      /\ body res' = bytesOf "secret"
      /\ finished res' = true.
Proof.
  cbv zeta. split; [reflexivity |]. split; [reflexivity |].
  eexists. split; [vm_compute; reflexivity |].
  repeat split; reflexivity.
Qed.

(** ** Byte ranges *)

(** C2, at the failing inputs: on a file of 11 bytes, [bytes=5-2] is
    answered [206] with the range [5-2], and [bytes=abc] with a start
    that is not a number; neither is a byte range of the file. *)
Theorem C2_partial_without_valid_range :
  let served req :=
    responseOf
      (handleStaticFiles siteFiles siteMime req [("/static", siteMount noOptions)]
         freshResponse) in
  let backwards := served (getRange "/static/index.html" "bytes=5-2") in
  let unparsed := served (getRange "/static/index.html" "bytes=abc") in
  statusCode backwards = 206
  /\ outHeaders backwards !! "Content-Range" = Some "bytes 5-2/11"
  /\ outHeaders backwards !! "Content-Length" = Some "-2"
  /\ ~ validByteRange (Num 5) (Num 2) 11
  /\ statusCode unparsed = 206
  /\ outHeaders unparsed !! "Content-Range" = Some "bytes NaN-10/11"
  /\ JsNum.parseInt "abc" = NaN
  /\ ~ validByteRange NaN (Num 10) 11.
Proof.
  cbv zeta. repeat split; try (vm_compute; reflexivity).
  - intros (s & e & [= <-] & [= <-] & Hle & _). lia.
  - intros (s & e & Hs & _). discriminate Hs.
Qed.

Lemma window_length start end_off (content : list Byte.byte) :
  0 <= start <= end_off -> end_off < Z.of_nat (length content) ->
  Z.of_nat (length (window start end_off content)) = end_off - start + 1.
Proof.
  intros Hs He. unfold window. rewrite length_take, length_drop. lia.
Qed.

Lemma window_lookup start end_off (content : list Byte.byte) (i : nat) :
  0 <= start -> (Z.of_nat i < end_off - start + 1) ->
  window start end_off content !! i = content !! (Z.to_nat start + i)%nat.
Proof.
  intros Hs Hi. unfold window.
  rewrite lookup_take_lt by lia. apply lookup_drop.
Qed.

(** C3: a request [bytes=<start>-<end>] for a regular file of [size]
    bytes, past the validator check, is answered [416] exactly when
    [start >= size] or a given end is [>= size]; the [416] response has
    [Content-Range: bytes */<size>], writes no byte and is ended. *)
Theorem C3_unsatisfiable_range
    fs mimeLookup req p options content mtimeMs start end_off res :
  fs p = inr (RegularFile content mtimeMs) ->
  notFresh req options (statsOf (RegularFile content mtimeMs)) ->
  headers req !! "range" = Some (rangeHeader start end_off) ->
  0 <= start ->
  (forall e, end_off = Some e -> 0 <= e) ->
  body res = [] ->
  let sz := Z.of_nat (length content) in
  let unsatisfiable := sz <= start \/ exists e, end_off = Some e /\ sz <= e in
  let out := serveStaticFile fs mimeLookup req p options res in
  (statusCode (responseOf out) = 416 <-> unsatisfiable)
  /\ (unsatisfiable ->
      exists res',
        out = Return JsUndefined res'
        /\ statusCode res' = 416
        /\ outHeaders res' !! "Content-Range" = Some ("bytes */" ++ JsNum.showZ sz)
        /\ body res' = []
        /\ finished res' = true).
Proof.
  intros Hfs Hfresh Hrange Hs He Hbody sz unsatisfiable out.
  set (stats := statsOf (RegularFile content mtimeMs)) in *.
  assert (Hsize : size stats = sz) by reflexivity.
  assert (Hunsat_iff :
            unsatisfiable <-> (sz <= start \/ sz <= lastOffset sz end_off)).
  { subst unsatisfiable. split.
    - intros [H | (e & -> & H)]; [now left | now right].
    - intros [H | H]; [now left |].
      destruct end_off as [e |]; cbn [lastOffset] in H; [right; eauto | lia]. }
  assert (Hout : out = sendContent fs mimeLookup req p options stats
                         (withValidator options stats res)).
  { subst out. now apply serveStaticFile_regular. }
  assert (Hbody' : body (withValidator options stats res) = []).
  { unfold withValidator. now destruct (etag options). }
  destruct (Z_le_gt_dec sz start) as [Hge | Hlt];
    [| destruct (Z_le_gt_dec sz (lastOffset sz end_off)) as [Hge | Hlt']].
  - assert (Hu : unsatisfiable) by (apply Hunsat_iff; now left).
    rewrite Hout, (sendContent_unsatisfiable fs mimeLookup req p options stats start end_off)
      by (try assumption; rewrite Hsize; now left).
    cbn [responseOf statusCode]. split; [tauto |]. intros _.
    eexists. split; [reflexivity |]. cbn [statusCode outHeaders body finished].
    rewrite lookup_insert_eq, Hbody', Hsize. repeat split; reflexivity.
  - assert (Hu : unsatisfiable) by (apply Hunsat_iff; now right).
    rewrite Hout, (sendContent_unsatisfiable fs mimeLookup req p options stats start end_off)
      by (try assumption; rewrite Hsize; now right).
    cbn [responseOf statusCode]. split; [tauto |]. intros _.
    eexists. split; [reflexivity |]. cbn [statusCode outHeaders body finished].
    rewrite lookup_insert_eq, Hbody', Hsize. repeat split; reflexivity.
  - assert (Hnu : ~ unsatisfiable) by (rewrite Hunsat_iff; lia).
    split; [| tauto].
    destruct (Z_le_gt_dec start (lastOffset sz end_off)) as [Hord | Hrev].
    + rewrite Hout, (sendContent_partial fs mimeLookup req p options stats start end_off)
        by (try assumption; rewrite Hsize; lia).
      cbn [responseOf statusCode]. split; [discriminate | tauto].
    + (* a start after the end: the status is 206 all the same *)
      rewrite Hout, sendContent_headers, Hrange.
      destruct (rangeHeader_truthy start end_off) as (c & t & Heq).
      rewrite Heq, <- Heq. cbv zeta.
      destruct (rangeHeader_bounds start end_off (size stats) Hs He) as [-> ->].
      cbn [JsNum.geb JsNum.show JsNum.add JsNum.sub]. rewrite Hsize.
      replace ((sz <=? start) || (sz <=? lastOffset sz end_off)) with false
        by (symmetry; apply orb_false_iff; rewrite !Z.leb_gt; lia).
      unfold bind, setHeader, status, createReadStream, throw. cbv beta iota.
      replace ((0 <=? start) && (0 <=? lastOffset sz end_off)
               && (start <=? lastOffset sz end_off)) with false
        by (symmetry; rewrite !andb_false_iff, !Z.leb_gt; lia).
      cbn [responseOf statusCode]. split; [discriminate | tauto].
Qed.

Lemma notFresh_site (p range : string) options stats :
  notFresh (getRange p range) options stats.
Proof. intros _. vm_compute. discriminate. Defined.

Lemma C3_unsatisfiable_range_witness :
  let out :=
    serveStaticFile siteFiles siteMime
      (getRange "/static/index.html" (rangeHeader 11 None))
      "/var/www/index.html" (staticOptions noOptions) freshResponse in
  (statusCode (responseOf out) = 416
   <-> (11 <= 11 \/ exists e, @None Z = Some e /\ 11 <= e))
  /\ ((11 <= 11 \/ exists e, @None Z = Some e /\ 11 <= e) ->
      exists res',
        out = Return JsUndefined res'
        /\ statusCode res' = 416
        /\ outHeaders res' !! "Content-Range" = Some ("bytes */" ++ JsNum.showZ 11)
        /\ body res' = []
        /\ finished res' = true).
Proof.
  apply (C3_unsatisfiable_range siteFiles siteMime
           (getRange "/static/index.html" (rangeHeader 11 None))
           "/var/www/index.html" (staticOptions noOptions)
           (bytesOf "<h1>hi</h1>") 1700000000000 11 None freshResponse).
  - reflexivity.
  - apply notFresh_site.
  - reflexivity.
  - lia.
  - intros e He. discriminate He.
  - reflexivity.
Defined.

(** C4: a request [bytes=<start>-<end>] (or [bytes=<start>-]) for a
    regular file, past the validator check, whose range
    [0 <= start <= end < size] lies in the file, is answered [206] with
    [Content-Range: bytes <start>-<end>/<size>], [Accept-Ranges: bytes],
    [Content-Length] equal to [end - start + 1], and a body of exactly
    that many bytes, the bytes of the file from offset [start] on; for
    [bytes=0-0] the body is the first byte of the file. *)
Theorem C4_partial_content
    fs mimeLookup req p options content mtimeMs start end_off res :
  fs p = inr (RegularFile content mtimeMs) ->
  notFresh req options (statsOf (RegularFile content mtimeMs)) ->
  headers req !! "range" = Some (rangeHeader start end_off) ->
  body res = [] ->
  let sz := Z.of_nat (length content) in
  let e := lastOffset sz end_off in
  0 <= start <= e ->
  e < sz ->
  exists res',
    serveStaticFile fs mimeLookup req p options res = Return JsUndefined res'
    /\ statusCode res' = 206
    /\ outHeaders res' !! "Content-Range"
       = Some ("bytes " ++ JsNum.showZ start ++ "-" ++ JsNum.showZ e
                 ++ "/" ++ JsNum.showZ sz)
    /\ outHeaders res' !! "Accept-Ranges" = Some "bytes"
    /\ outHeaders res' !! "Content-Length" = Some (JsNum.showZ (e - start + 1))
    /\ Z.of_nat (length (body res')) = e - start + 1
    /\ (forall i : nat, Z.of_nat i < e - start + 1 ->
          body res' !! i = content !! (Z.to_nat start + i)%nat)
    /\ finished res' = true
    /\ (start = 0 -> e = 0 -> exists b, content !! 0%nat = Some b /\ body res' = [b]).
Proof.
  intros Hfs Hfresh Hrange Hbody sz e Hs He.
  set (stats := statsOf (RegularFile content mtimeMs)) in *.
  assert (Hsize : size stats = sz) by reflexivity.
  assert (Hend : forall e', end_off = Some e' -> 0 <= e').
  { intros e' ->. cbn [lastOffset] in e. lia. }
  assert (Hbody' : body (withValidator options stats res) = []).
  { unfold withValidator. now destruct (etag options). }
  rewrite (serveStaticFile_regular fs mimeLookup req p options content mtimeMs res Hfs Hfresh).
  fold stats.
  rewrite (sendContent_partial fs mimeLookup req p options stats start end_off)
    by (try assumption; rewrite Hsize; assumption).
  rewrite Hsize. fold e. rewrite Hfs, Hbody'. cbn [contentOf app].
  eexists. split; [reflexivity |]. cbn [statusCode outHeaders body finished].
  split; [reflexivity |].
  split; [now rewrite !lookup_insert_ne, lookup_insert_eq by discriminate |].
  split; [now rewrite lookup_insert_ne, lookup_insert_eq by discriminate |].
  split; [now rewrite lookup_insert_eq |].
  split; [now apply window_length |].
  split; [intros i Hi; apply window_lookup; lia |].
  split; [reflexivity |].
  intros -> He0. rewrite He0 in *.
  destruct content as [| b content'].
  - subst sz. cbn [length] in He. lia.
  - exists b. split; reflexivity.
Qed.

Lemma C4_partial_content_witness :
  exists res',
    serveStaticFile siteFiles siteMime
      (getRange "/static/index.html" (rangeHeader 0 (Some 0)))
      "/var/www/index.html" (staticOptions noOptions) freshResponse
    = Return JsUndefined res'
    /\ statusCode res' = 206
    /\ outHeaders res' !! "Content-Range" = Some "bytes 0-0/11"
    /\ body res' = bytesOf "<".
Proof.
  destruct (C4_partial_content siteFiles siteMime
              (getRange "/static/index.html" (rangeHeader 0 (Some 0)))
              "/var/www/index.html" (staticOptions noOptions)
              (bytesOf "<h1>hi</h1>") 1700000000000 0 (Some 0) freshResponse)
    as (res' & Hout & Hstatus & Hcr & _ & _ & _ & _ & _ & Hfirst).
  - reflexivity.
  - apply notFresh_site.
  - reflexivity.
  - reflexivity.
  - cbn. lia.
  - cbn. lia.
  - exists res'. split; [exact Hout |]. split; [exact Hstatus |].
    split; [exact Hcr |].
    destruct (Hfirst eq_refl eq_refl) as (b & Hb & Hbody).
    rewrite Hbody. injection Hb as <-. reflexivity.
Defined.

(** ** Validators *)

Section Validators.

Import JsNum.

Lemma readDigits_stop n c rest :
  isDigit c = false -> readDigits n (String c rest) = (n, String c rest).
Proof. intros Hc. cbn [readDigits]. now rewrite Hc. Qed.

(** [showZ] followed by something that is not a digit reads back. *)
Lemma readZ_showZ n c rest :
  isDigit c = false -> readZ (showZ n ++ String c rest) = (n, String c rest).
Proof.
  intros Hc. destruct (Z.ltb_spec n 0) as [Hneg | Hpos].
  - assert (Hshow : showZ n = String "-" (showZ (- n))).
    { unfold showZ. destruct (Z.ltb_spec n 0); [| lia].
      destruct (Z.ltb_spec (- n) 0); [lia | reflexivity]. }
    rewrite Hshow. cbn [String.append readZ].
    rewrite readDigits_showZ by lia. rewrite readDigits_stop by exact Hc.
    f_equal. lia.
  - pose proof (showZ_allDigits n Hpos) as Hall.
    pose proof (showZ_nonempty n) as Hne.
    pose proof (readDigits_showZ n (String c rest) Hpos) as Hread.
    destruct (showZ n) as [| d s] eqn:Hs; [congruence |].
    cbn [allDigits] in Hall. apply andb_prop in Hall as [Hd _].
    destruct (isDigit_not_special d Hd) as (_ & Hminus & _).
    cbn [String.append] in *. unfold readZ.
    rewrite Hread, readDigits_stop by exact Hc.
    destruct d as [b0 b1 b2 b3 b4 b5 b6 b7].
    destruct b0, b1, b2, b3, b4, b5, b6, b7; try reflexivity; congruence.
Qed.

(** The validator determines the size and the modification time. *)
Lemma etagOf_inj stats1 stats2 :
  0 <= size stats1 -> 0 <= size stats2 ->
  etagOf stats1 = etagOf stats2 ->
  size stats1 = size stats2 /\ mtime stats1 = mtime stats2.
Proof.
  intros H1 H2 Heq. unfold etagOf, dquote in Heq.
  cbn [String.append] in Heq. injection Heq as Heq.
  apply (f_equal (readDigits 0)) in Heq.
  rewrite !readDigits_showZ in Heq by assumption.
  rewrite !readDigits_stop in Heq by reflexivity.
  injection Heq as Hsize Hrest. split; [exact Hsize |].
  apply (f_equal readZ) in Hrest.
  rewrite !readZ_showZ in Hrest by reflexivity.
  now injection Hrest.
Qed.

End Validators.

(** C5: the validator is a function of the size and the modification
    time alone, two files get the same validator exactly when both
    agree, and a request for a regular file, served with validators on,
    whose [If-None-Match] is the file's validator is answered [304]
    with the validator and no byte written. *)
Theorem C5_validator
    fs mimeLookup req p options content mtimeMs res :
  (forall stats1 stats2,
      size stats1 = size stats2 -> mtime stats1 = mtime stats2 ->
      etagOf stats1 = etagOf stats2)
  /\ (forall content1 mtime1 content2 mtime2,
        etagOf (statsOf (RegularFile content1 mtime1))
        = etagOf (statsOf (RegularFile content2 mtime2))
        <-> length content1 = length content2 /\ mtime1 = mtime2)
  /\ (fs p = inr (RegularFile content mtimeMs) ->
      etag options = true ->
      headers req !! "if-none-match"
      = Some (etagOf (statsOf (RegularFile content mtimeMs))) ->
      body res = [] ->
      exists res',
        serveStaticFile fs mimeLookup req p options res = Return JsUndefined res'
        /\ statusCode res' = 304
        /\ outHeaders res' !! "ETag"
           = Some (etagOf (statsOf (RegularFile content mtimeMs)))
        /\ body res' = []
        /\ finished res' = true).
Proof.
  split; [| split].
  - intros stats1 stats2 Hs Hm. unfold etagOf. now rewrite Hs, Hm.
  - intros content1 mtime1 content2 mtime2. split.
    + intros Heq. apply etagOf_inj in Heq; cbn [statsOf size mtime] in *; lia.
    + intros [Hlen ->]. unfold etagOf. cbn [statsOf size mtime]. now rewrite Hlen.
  - intros Hfs Hetag Hmatch Hbody.
    rewrite (serveStaticFile_fresh fs mimeLookup req p options content mtimeMs res)
      by assumption.
    eexists. split; [reflexivity |]. cbn [statusCode outHeaders body finished].
    rewrite lookup_insert_eq. repeat split; try reflexivity. exact Hbody.
Qed.

Lemma C5_validator_witness :
  let validator := etagOf (statsOf (RegularFile (bytesOf "<h1>hi</h1>") 1700000000000)) in
  exists res',
    serveStaticFile siteFiles siteMime
      {| path := "/static/index.html"; headers := {[ "if-none-match" := validator ]} |}
      "/var/www/index.html" (staticOptions noOptions) freshResponse
    = Return JsUndefined res'
    /\ statusCode res' = 304
    /\ outHeaders res' !! "ETag" = Some validator
    /\ body res' = []
    /\ finished res' = true.
Proof.
  intros validator.
  apply (C5_validator siteFiles siteMime
           {| path := "/static/index.html";
              headers := {[ "if-none-match" := validator ]} |}
           "/var/www/index.html" (staticOptions noOptions)
           (bytesOf "<h1>hi</h1>") 1700000000000 freshResponse).
  - reflexivity.
  - reflexivity.
  - vm_compute. reflexivity.
  - reflexivity.
Defined.

(** ** The mount iteration *)

Section Mounts.

Variable fs : FileSystem.
Variable mimeLookup : string -> option string.

Lemma isENOENT_code c m : isENOENT (NodeError c m) = true -> c = "ENOENT".
Proof. unfold isENOENT, code. apply String.eqb_eq. Qed.

(** One mount: either a file is served, and the call returns
    [undefined] with the response ended, or an error is thrown; the
    error is an [ENOENT] only when the resolved path itself is missing,
    and then the response is untouched. *)
Lemma serveFromMount_outcome req absolutePath options res :
  match serveFromMount fs mimeLookup req absolutePath options res with
  | Return v res' => v = JsUndefined /\ finished res' = true
  | Throw err res' =>
      isENOENT err = true ->
      res' = res /\ exists m, fs absolutePath = inl ("ENOENT", m)
  end.
Proof.
  unfold serveFromMount, stat.
  destruct (fs absolutePath) as [[c m] | n].
  - unfold bind, throw. intros Hc. apply isENOENT_code in Hc as ->. eauto.
  - unfold bind at 1. unfold ret at 1.
    assert (Hserve : forall p,
      match serveStaticFile fs mimeLookup req p options res with
      | Return v res' => v = JsUndefined /\ finished res' = true
      | Throw err res' =>
          isENOENT err = true ->
          res' = res /\ exists m, @inr (string * string) node n = inl ("ENOENT", m)
      end).
    { intros p. pose proof (serveStaticFile_outcome fs mimeLookup req p options res) as H.
      destruct (serveStaticFile fs mimeLookup req p options res); [exact H | congruence]. }
    destruct (isDirectory (statsOf n)).
    + destruct (JsString.truthy (index options)); [apply Hserve | discriminate].
    + destruct (JsString.startsWith "." (Path.basename absolutePath)); [| apply Hserve].
      destruct (String.eqb (dotfiles options) "deny"); [discriminate |].
      destruct (String.eqb (dotfiles options) "ignore"); [discriminate | apply Hserve].
Qed.

Lemma handleStaticFiles_skip req urlPath mount rest res :
  JsString.startsWith urlPath (path req) = false ->
  handleStaticFiles fs mimeLookup req ((urlPath, mount) :: rest) res
  = handleStaticFiles fs mimeLookup req rest res.
Proof. intros H. cbn [handleStaticFiles]. now rewrite H. Qed.

(** The loop body for a mount that accepts the request. *)
Lemma handleStaticFiles_accepted req urlPath mount rest res :
  accepted urlPath mount req ->
  handleStaticFiles fs mimeLookup req ((urlPath, mount) :: rest) res
  = match serveFromMount fs mimeLookup req (resolved urlPath mount req)
            (options mount) res with
    | Return v res' => Return v res'
    | Throw err res' =>
        if isENOENT err then handleStaticFiles fs mimeLookup req rest res'
        else Throw err res'
    end.
Proof.
  intros [Hmatch Hin]. cbn [handleStaticFiles]. unfold resolved in *.
  rewrite Hmatch, Hin. cbn [negb]. unfold tryCatch, throw.
  destruct (serveFromMount _ _ _ _ _ _) as [v r | err r]; [reflexivity |].
  destruct (isENOENT err); reflexivity.
Qed.

(** A missing path: on with the next mount. *)
Lemma handleStaticFiles_continue req urlPath mount rest res m :
  accepted urlPath mount req ->
  fs (resolved urlPath mount req) = inl ("ENOENT", m) ->
  handleStaticFiles fs mimeLookup req ((urlPath, mount) :: rest) res
  = handleStaticFiles fs mimeLookup req rest res.
Proof.
  intros Hadm Hfs. rewrite handleStaticFiles_accepted by exact Hadm.
  unfold serveFromMount, stat. rewrite Hfs. reflexivity.
Qed.


End Mounts.

(** C6, as stated, fails: [/static/.env] is a dotfile of the first
    mount, hidden by its [ignore] policy; the search stops there with a
    [404], although the second mount holds the file and would serve it. *)
Lemma C6_ignored_dotfile_ends_search :
  let req := get "/static/.env" in
  let others := [("/", fallbackMount)] in
  handleStaticFiles siteFiles siteMime req (("/static", siteMount noOptions) :: others)
    freshResponse
  = Throw (HttpError 404 "Not Found") freshResponse
  /\ (exists res',
        handleStaticFiles siteFiles siteMime req others freshResponse
        = Return JsUndefined res'
        /\ statusCode res' = 200 /\ body res' = bytesOf "public")
  /\ handleStaticFiles siteFiles siteMime req (("/static", siteMount noOptions) :: others)
       freshResponse
     <> handleStaticFiles siteFiles siteMime req others freshResponse.
Proof.
  cbv zeta. split; [vm_compute; reflexivity |]. split.
  - eexists. split; [vm_compute; reflexivity |]. split; reflexivity.
  - vm_compute. discriminate.
Qed.

(** C6, amended: for a mount that accepts the request, the search goes on
    to the next mount when the resolved path itself is missing ([stat]
    fails with [ENOENT]), and only then; every other failure ends the
    search and is thrown as it is.  That holds for the [404] of a dotfile
    under [ignore], of a directory index that is missing, and of a
    directory served without an index. *)
Theorem C6_only_missing_path_continues
    fs mimeLookup req urlPath mount rest res :
  accepted urlPath mount req ->
  let absolutePath := resolved urlPath mount req in
  let here := handleStaticFiles fs mimeLookup req ((urlPath, mount) :: rest) res in
  ((exists m, fs absolutePath = inl ("ENOENT", m)) ->
     here = handleStaticFiles fs mimeLookup req rest res)
  /\ (forall err res',
        serveFromMount fs mimeLookup req absolutePath (options mount) res
        = Throw err res' ->
        (forall m, fs absolutePath <> inl ("ENOENT", m)) ->
        here = Throw err res')
  /\ (forall n,
        fs absolutePath = inr n -> isDirectory (statsOf n) = false ->
        JsString.startsWith "." (Path.basename absolutePath) = true ->
        dotfiles (options mount) = "ignore" ->
        here = Throw (HttpError 404 "Not Found") res)
  /\ (forall m,
        fs absolutePath = inr Directory ->
        JsString.truthy (index (options mount)) = true ->
        fs (Path.join absolutePath (index (options mount))) = inl ("ENOENT", m) ->
        here = Throw (HttpError 404 "File Not Found") res)
  /\ (fs absolutePath = inr Directory ->
      JsString.truthy (index (options mount)) = false ->
      here = Throw (HttpError 404 "Not Found") res).
Proof.
  intros Hadm absolutePath here.
  assert (Hhere : here = _) by exact (handleStaticFiles_accepted fs mimeLookup req urlPath mount rest res Hadm).
  fold absolutePath in Hhere.
  split; [| split; [| split; [| split]]].
  - intros [m Hfs]. subst here absolutePath.
    now apply handleStaticFiles_continue with (m := m).
  - intros err res' Hthrow Hpresent. rewrite Hhere, Hthrow.
    pose proof (serveFromMount_outcome fs mimeLookup req absolutePath (options mount) res)
      as Hout.
    rewrite Hthrow in Hout.
    destruct (isENOENT err); [| reflexivity].
    destruct (Hout eq_refl) as [_ [m Hm]]. now destruct (Hpresent m).
  - intros n Hfs Hdir Hdot Hpolicy. rewrite Hhere.
    unfold serveFromMount, stat. rewrite Hfs.
    unfold bind at 1. unfold ret at 1. rewrite Hdir, Hdot, Hpolicy. reflexivity.
  - intros m Hfs Hindex Hmissing. rewrite Hhere.
    unfold serveFromMount, stat. rewrite Hfs.
    unfold bind at 1. unfold ret at 1. cbn [statsOf isDirectory]. rewrite Hindex.
    rewrite (serveStaticFile_missing fs mimeLookup req _ _ m) by exact Hmissing.
    reflexivity.
  - intros Hfs Hindex. rewrite Hhere.
    unfold serveFromMount, stat. rewrite Hfs.
    unfold bind at 1. unfold ret at 1. cbn [statsOf isDirectory]. rewrite Hindex.
    reflexivity.
Qed.

Lemma accepted_site_env : accepted "/static" (siteMount noOptions) (get "/static/.env").
Proof. split; reflexivity. Defined.

Lemma C6_only_missing_path_continues_witness :
  handleStaticFiles siteFiles siteMime (get "/static/.env")
    [("/static", siteMount noOptions); ("/", fallbackMount)] freshResponse
  = Throw (HttpError 404 "Not Found") freshResponse.
Proof.
  destruct (C6_only_missing_path_continues siteFiles siteMime (get "/static/.env")
              "/static" (siteMount noOptions) [("/", fallbackMount)] freshResponse
              accepted_site_env)
    as (_ & _ & Hignore & _).
  apply (Hignore (RegularFile (bytesOf "KEY=1") 1700000000001)); reflexivity.
Defined.

(** Handing a path of an accepting mount to [#serveStaticFile]: the
    [catch] of the loop lets everything through, since a missing file
    has already become a [404]. *)
Lemma serveStaticFile_through_catch
    fs mimeLookup req p options res (next : handler jsval) :
  match serveStaticFile fs mimeLookup req p options res with
  | Return v res' => Return v res'
  | Throw err res' => if isENOENT err then next res' else Throw err res'
  end
  = serveStaticFile fs mimeLookup req p options res.
Proof.
  pose proof (serveStaticFile_outcome fs mimeLookup req p options res) as Hout.
  destruct (serveStaticFile fs mimeLookup req p options res) as [v r | err r];
    [reflexivity | now rewrite Hout].
Qed.

(** C7, as stated, fails: under [deny], with the index name
    [.index.html], the request [/static/] resolves to a directory and is
    answered [200] with the bytes of [/var/www/.index.html], a regular
    file whose last segment begins with a dot; the same file asked for
    by its own path is refused. *)
Lemma C7_dot_index_served_under_deny :
  let indexPath :=
    Path.join (resolved "/static" dotIndexMount (get "/static/"))
      (index (options dotIndexMount)) in
  dotfiles (options dotIndexMount) = "deny"
  /\ indexPath = "/var/www/.index.html"
  /\ dotIndexFiles indexPath = inr (RegularFile (bytesOf "HIDDEN") 1700000000004)
  /\ JsString.startsWith "." (Path.basename indexPath) = true
  /\ (exists res',
        handleStaticFiles dotIndexFiles siteMime (get "/static/")
          [("/static", dotIndexMount)] freshResponse
        = Return JsUndefined res'
        /\ statusCode res' = 200
        /\ body res' = bytesOf "HIDDEN")
  /\ handleStaticFiles dotIndexFiles siteMime (get "/static/.index.html")
       [("/static", dotIndexMount)] freshResponse
     = Throw (HttpError 403 "Forbidden") freshResponse.
Proof.
  cbv zeta. split; [reflexivity |]. split; [reflexivity |].
  split; [reflexivity |]. split; [reflexivity |]. split.
  - eexists. split; [vm_compute; reflexivity |]. split; reflexivity.
  - vm_compute. reflexivity.
Qed.

(** C7, amended: for a mount that accepts the request and a requested
    path that is itself a regular file whose last segment begins with a
    dot, the policy [deny] gives [403 Forbidden], [ignore] gives
    [404 Not Found], and [allow] serves the file as any other, [200]
    with its bytes for a plain request.  The test reads the last segment
    of the requested path, on the branch for what is not a directory: a
    file whose own name has no dot in front is served under every
    policy, and a directory is answered with its index file without the
    test being made, whatever the name of the index file. *)
Theorem C7_dotfile_policy
    fs mimeLookup req urlPath mount rest res :
  accepted urlPath mount req ->
  let absolutePath := resolved urlPath mount req in
  let here := handleStaticFiles fs mimeLookup req ((urlPath, mount) :: rest) res in
  (forall content mtimeMs,
      fs absolutePath = inr (RegularFile content mtimeMs) ->
      JsString.startsWith "." (Path.basename absolutePath) = true ->
      (dotfiles (options mount) = "deny" ->
         here = Throw (HttpError 403 "Forbidden") res)
      /\ (dotfiles (options mount) = "ignore" ->
            here = Throw (HttpError 404 "Not Found") res)
      /\ (dotfiles (options mount) = "allow" ->
            here = serveStaticFile fs mimeLookup req absolutePath (options mount) res
            /\ (headers req !! "range" = None ->
                notFresh req (options mount) (statsOf (RegularFile content mtimeMs)) ->
                statusCode res = 200 -> body res = [] ->
                exists res',
                  here = Return JsUndefined res'
                  /\ statusCode res' = 200
                  /\ body res' = content
                  /\ finished res' = true)))
  /\ (forall content mtimeMs,
        fs absolutePath = inr (RegularFile content mtimeMs) ->
        JsString.startsWith "." (Path.basename absolutePath) = false ->
        here = serveStaticFile fs mimeLookup req absolutePath (options mount) res)
  /\ (fs absolutePath = inr Directory ->
      JsString.truthy (index (options mount)) = true ->
      here = serveStaticFile fs mimeLookup req
               (Path.join absolutePath (index (options mount))) (options mount) res).
Proof.
  intros Hadm absolutePath here.
  assert (Hhere : here = _)
    by exact (handleStaticFiles_accepted fs mimeLookup req urlPath mount rest res Hadm).
  fold absolutePath in Hhere. clearbody here absolutePath.
  split; [| split].
  - intros content mtimeMs Hfs Hdot.
    assert (Hbody : serveFromMount fs mimeLookup req absolutePath (options mount) res
                    = if String.eqb (dotfiles (options mount)) "deny"
                      then Throw (HttpError 403 "Forbidden") res
                      else if String.eqb (dotfiles (options mount)) "ignore"
                           then Throw (HttpError 404 "Not Found") res
                           else serveStaticFile fs mimeLookup req absolutePath
                                  (options mount) res).
    { unfold serveFromMount, stat. rewrite Hfs.
      unfold bind at 1. unfold ret at 1. cbn [statsOf isDirectory]. rewrite Hdot.
      destruct (String.eqb _ "deny"); [reflexivity |].
      destruct (String.eqb _ "ignore"); reflexivity. }
    rewrite Hbody in Hhere.
    split; [| split]; intros Hpolicy; rewrite Hpolicy in Hhere; cbn in Hhere;
      try exact Hhere.
    rewrite serveStaticFile_through_catch in Hhere.
    split; [exact Hhere |].
    intros Hrange Hfresh Hstatus Hempty. rewrite Hhere.
    rewrite (serveStaticFile_regular fs mimeLookup req absolutePath (options mount)
               content mtimeMs res Hfs Hfresh).
    rewrite sendContent_full by now left.
    assert (Hsame : statusCode (withValidator (options mount)
                      (statsOf (RegularFile content mtimeMs)) res) = 200
                    /\ body (withValidator (options mount)
                      (statsOf (RegularFile content mtimeMs)) res) = []).
    { unfold withValidator. now destruct (etag (options mount)). }
    destruct Hsame as [Hst Hbd].
    eexists. split; [reflexivity |]. cbn [statusCode body finished].
    rewrite Hst, Hbd, Hfs. repeat split; reflexivity.
  - intros content mtimeMs Hfs Hdot. rewrite Hhere.
    unfold serveFromMount, stat. rewrite Hfs.
    unfold bind at 1. unfold ret at 1. cbn [statsOf isDirectory]. rewrite Hdot.
    apply serveStaticFile_through_catch.
  - intros Hfs Hindex. rewrite Hhere.
    unfold serveFromMount, stat. rewrite Hfs.
    unfold bind at 1. unfold ret at 1. cbn [statsOf isDirectory]. rewrite Hindex.
    apply serveStaticFile_through_catch.
Qed.

Lemma C7_dotfile_policy_witness :
  handleStaticFiles siteFiles siteMime (get "/static/.env")
    [("/static", siteMount noOptions)] freshResponse
  = Throw (HttpError 404 "Not Found") freshResponse.
Proof.
  destruct (C7_dotfile_policy siteFiles siteMime (get "/static/.env")
              "/static" (siteMount noOptions) [] freshResponse accepted_site_env)
    as (Hpolicy & _ & _).
  destruct (Hpolicy (bytesOf "KEY=1") 1700000000001 eq_refl eq_refl)
    as (_ & Hignore & _).
  apply Hignore. reflexivity.
Defined.

(** ** The guard in [listen] *)



(** ** Cache lifetime *)

Section CacheControl.

Variable fs : FileSystem.
Variable mimeLookup : string -> option string.

(** Once set, [Cache-Control] stays as the content headers left it. *)
Lemma sendContent_cacheControl req p options stats res :
  outHeaders (responseOf (sendContent fs mimeLookup req p options stats res))
    !! "Cache-Control"
  = outHeaders (contentHeaders mimeLookup p options stats res) !! "Cache-Control".
Proof.
  rewrite sendContent_headers.
  set (res0 := contentHeaders mimeLookup p options stats res). clearbody res0.
  assert (Hfull : outHeaders (responseOf
            ((stream <- createReadStream fs p None ;; pipe stream ;; ret JsUndefined)%handler
               res0)) !! "Cache-Control" = outHeaders res0 !! "Cache-Control").
  { unfold bind, pipe, ret, createReadStream. reflexivity. }
  destruct (headers req !! "range") as [[| c range'] |]; try exact Hfull.
  cbv zeta.
  match goal with |- context [if ?b then _ else _] => destruct b end.
  - unfold bind, setHeader, status, end_, ret. cbn [responseOf outHeaders].
    now rewrite lookup_insert_ne by discriminate.
  - unfold bind, setHeader, status, pipe, ret. cbv beta iota.
    match goal with
    | |- context [createReadStream fs p ?rg ?r0] =>
        destruct (createReadStream fs p rg r0) as [bytes r | err r] eqn:Hcrs
    end.
    + apply createReadStream_return in Hcrs as ->.
      cbn [responseOf outHeaders].
      now rewrite !lookup_insert_ne by discriminate.
    + apply createReadStream_throw in Hcrs as [_ ->].
      cbn [responseOf outHeaders].
      now rewrite !lookup_insert_ne by discriminate.
Qed.

Lemma contentHeaders_cacheControl p options stats res :
  maxAge options <> 0 ->
  outHeaders (contentHeaders mimeLookup p options stats res) !! "Cache-Control"
  = Some ("public, max-age=" ++ JsNum.showZ (maxAge options / 1000)).
Proof.
  intros Hage. unfold contentHeaders. cbn [outHeaders].
  destruct (Z.eqb_spec (maxAge options) 0); [contradiction |].
  apply lookup_insert_eq.
Qed.

(** Every response with content carries the cache lifetime of the
    options, in whole seconds. *)
Lemma serveStaticFile_cacheControl req p options res v res' :
  maxAge options <> 0 ->
  serveStaticFile fs mimeLookup req p options res = Return v res' ->
  statusCode res' <> 304 ->
  outHeaders res' !! "Cache-Control"
  = Some ("public, max-age=" ++ JsNum.showZ (maxAge options / 1000)).
Proof.
  intros Hage Hret Hstatus.
  destruct (fs p) as [[c m] | n] eqn:Hfs.
  - exfalso. revert Hret. unfold serveStaticFile, tryCatch, stat. rewrite Hfs.
    unfold bind, throw. destruct (isENOENT _); discriminate.
  - destruct n as [content mtimeMs | |];
      try (rewrite (serveStaticFile_not_file fs mimeLookup req p options _ res Hfs eq_refl)
            in Hret; discriminate).
    set (stats := statsOf (RegularFile content mtimeMs)) in *.
    destruct (etag options) eqn:Hetag;
      [destruct (decide (headers req !! "if-none-match" = Some (etagOf stats)))
         as [Hmatch | Hmiss] |].
    + rewrite (serveStaticFile_fresh fs mimeLookup req p options content mtimeMs res
                 Hfs Hetag Hmatch) in Hret.
      injection Hret as _ <-. now cbn in Hstatus.
    + rewrite (serveStaticFile_regular fs mimeLookup req p options content mtimeMs res Hfs)
        in Hret by (intros _; exact Hmiss).
      fold stats in Hret.
      pose proof (sendContent_cacheControl req p options stats
                    (withValidator options stats res)) as Hcc.
      rewrite Hret in Hcc. cbn [responseOf] in Hcc. rewrite Hcc.
      now apply contentHeaders_cacheControl.
    + rewrite (serveStaticFile_regular fs mimeLookup req p options content mtimeMs res Hfs)
        in Hret by (intros Hon; congruence).
      fold stats in Hret.
      pose proof (sendContent_cacheControl req p options stats
                    (withValidator options stats res)) as Hcc.
      rewrite Hret in Hcc. cbn [responseOf] in Hcc. rewrite Hcc.
      now apply contentHeaders_cacheControl.
Qed.

End CacheControl.

Lemma mapSet_In key value m : In (key, value) (mapSet key value m).
Proof.
  induction m as [| [k v] m IH]; cbn [mapSet]; [now left |].
  destruct (String.eqb_spec k key) as [-> | Hne]; [now left | now right].
Qed.

(** C8, as stated, fails: a mount registered with [maxAge: 3600] answers
    with [max-age=3], not [max-age=3600]. *)
Lemma C8_max_age_is_not_seconds :
  let given := {| givenIndex := None; givenDotfiles := None;
                  givenEtag := None; givenMaxAge := Some 3600 |} in
  exists staticPaths res',
    static "/srv/app" "/static" "/var/www" given [] = inr staticPaths
    /\ handleStaticFiles siteFiles siteMime (get "/static/index.html") staticPaths
         freshResponse
       = Return JsUndefined res'
    /\ statusCode res' = 200
    /\ outHeaders res' !! "Cache-Control" = Some "public, max-age=3"
    /\ outHeaders res' !! "Cache-Control" <> Some ("public, max-age=" ++ JsNum.showZ 3600).
Proof.
  cbv zeta. eexists. eexists.
  split; [vm_compute; reflexivity |].
  split; [vm_compute; reflexivity |].
  split; [reflexivity |].
  split; [vm_compute; reflexivity | vm_compute; discriminate].
Qed.

(** C8, amended: [maxAge] is a number of milliseconds.  For a mount
    registered with a positive [maxAge] of [ms], every response of that
    mount's options that is returned with a status other than [304]
    carries [Cache-Control: public, max-age=<ms / 1000>], the quotient
    rounded down. *)
Theorem C8_max_age_in_milliseconds
    cwd urlPath dirPath given ms staticPaths staticPaths' :
  givenMaxAge given = Some ms ->
  0 < ms ->
  static cwd urlPath dirPath given staticPaths = inr staticPaths' ->
  exists mount,
    In (urlPath, mount) staticPaths'
    /\ maxAge (options mount) = ms
    /\ forall fs mimeLookup req p res v res',
         serveStaticFile fs mimeLookup req p (options mount) res = Return v res' ->
         statusCode res' <> 304 ->
         outHeaders res' !! "Cache-Control"
         = Some ("public, max-age=" ++ JsNum.showZ (ms / 1000)).
Proof.
  intros Hgiven Hpos Hstatic. unfold static in Hstatic.
  destruct (negb (JsString.truthy urlPath) || negb (JsString.truthy dirPath));
    [discriminate |].
  injection Hstatic as <-.
  assert (Hage : maxAge (staticOptions given) = ms).
  { unfold staticOptions. cbn [maxAge]. now rewrite Hgiven. }
  eexists. split; [apply mapSet_In |]. cbn [options]. split; [exact Hage |].
  intros fs mimeLookup req p res v res' Hret Hstatus.
  rewrite <- Hage.
  apply (serveStaticFile_cacheControl fs mimeLookup req p (staticOptions given) res v res');
    [lia | exact Hret | exact Hstatus].
Qed.

Lemma C8_max_age_in_milliseconds_witness :
  exists mount,
    In ("/static", mount) [("/static", mount)]
    /\ maxAge (options mount) = 3600
    /\ forall fs mimeLookup req p res v res',
         serveStaticFile fs mimeLookup req p (options mount) res = Return v res' ->
         statusCode res' <> 304 ->
         outHeaders res' !! "Cache-Control"
         = Some ("public, max-age=" ++ JsNum.showZ (3600 / 1000)).
Proof.
  destruct (C8_max_age_in_milliseconds "/srv/app" "/static" "/var/www"
              {| givenIndex := None; givenDotfiles := None;
                 givenEtag := None; givenMaxAge := Some 3600 |}
              3600 [] _ eq_refl ltac:(lia) eq_refl)
    as (mount & Hin & Hage & Hheader).
  exists mount. split; [| split; [exact Hage | exact Hheader]].
  destruct Hin as [[= <-] | []]. now left.
Defined.

(** ** The per-response helpers *)

(** C10, as stated, fails: [res.download] of a path that exists and is
    not a regular file fails with status [404], from the helper's own
    test, not with [500]. *)
Lemma C10_download_of_directory_is_404 :
  download siteFiles "/srv/app" siteMime None "/var/www" None freshResponse
  = Throw (HttpError 404 "File Not Found") freshResponse
  /\ statusOr500 (HttpError 404 "File Not Found") <> 500.
Proof. split; [vm_compute; reflexivity | discriminate]. Qed.

(** C10, amended: with no [req] in scope, [res.sendFile] fails for every
    path with an [HttpError] of status [500] before the file system is
    touched; [res.download] fails for every path with an [HttpError] and
    writes no byte: status [404] when the path exists and is not a
    regular file, status [500] otherwise. *)
Theorem C10_helpers_always_fail
    fs cwd mimeLookup filePath options filename res :
  sendFile fs cwd mimeLookup None filePath options res
  = Throw (HttpError 500 "req is not defined") res
  /\ exists st message res',
      download fs cwd mimeLookup None filePath filename res
      = Throw (HttpError st message) res'
      /\ body res' = body res
      /\ finished res' = finished res
      /\ statusCode res' = statusCode res
      /\ (st = 404 \/ st = 500)
      /\ (st = 404 <->
          exists n, fs (Path.resolve cwd filePath) = inr n /\ isFile (statsOf n) = false).
Proof.
  split; [reflexivity |].
  unfold download, tryCatch, stat.
  destruct (fs (Path.resolve cwd filePath)) as [[c m] | n] eqn:Hfs.
  - exists 500, m, res. unfold bind, throw. cbn [statusOr500 status_of message_of].
    repeat split; try reflexivity; try (now right); try discriminate.
    intros (n & Hn & _). discriminate Hn.
  - unfold bind at 1. unfold ret at 1.
    destruct (isFile (statsOf n)) eqn:Hfile; cbn [negb].
    + eexists 500, _, _. unfold bind, setHeader, resolveReq, throw.
      cbn [statusOr500 status_of message_of].
      split; [reflexivity |]. cbn [body finished statusCode].
      repeat split; try reflexivity; try (now right); try discriminate.
      intros (n' & [= <-] & Hn'). congruence.
    + exists 404, "File Not Found", res. unfold throw.
      cbn [statusOr500 status_of message_of]. change (404 =? 0) with false. cbv iota.
      repeat split; try reflexivity; try (now left). eauto.
Qed.

(** * Further properties of the code *)

(** ** Registration *)

Lemma mapGet_mapSet_eq key value m : mapGet key (mapSet key value m) = Some value.
Proof.
  unfold mapGet.
  induction m as [| [k v] m IH]; cbn [mapSet List.find fst snd].
  - now rewrite String.eqb_refl.
  - destruct (String.eqb k key) eqn:Hk; cbn [List.find fst snd]; rewrite Hk;
      [reflexivity | exact IH].
Qed.

Lemma mapGet_mapSet_ne key key' value m :
  key' <> key -> mapGet key' (mapSet key value m) = mapGet key' m.
Proof.
  intros Hne. unfold mapGet.
  assert (Hkey : String.eqb key key' = false)
    by (apply String.eqb_neq; congruence).
  induction m as [| [k v] m IH]; cbn [mapSet List.find fst snd].
  - now rewrite Hkey.
  - destruct (String.eqb_spec k key) as [-> | Hk]; cbn [List.find fst snd].
    + now rewrite Hkey.
    + destruct (String.eqb k key'); [reflexivity | exact IH].
Qed.

Lemma keys_mapSet key value m :
  keys (mapSet key value m)
  = if existsb (String.eqb key) (keys m) then keys m else (keys m ++ [key])%list.
Proof.
  unfold keys.
  induction m as [| [k v] m IH]; cbn [mapSet List.map fst existsb app]; [reflexivity |].
  rewrite (String.eqb_sym key k).
  destruct (String.eqb k key); cbn [List.map fst orb]; [reflexivity |].
  rewrite IH. now destruct (existsb _ _).
Qed.

Lemma existsb_eqb_In key l : existsb (String.eqb key) l = true <-> In key l.
Proof.
  rewrite existsb_exists. split.
  - intros (x & Hin & Heq). apply String.eqb_eq in Heq. now subst.
  - intros Hin. exists key. split; [exact Hin | apply String.eqb_refl].
Qed.

(** X1: [static] refuses an empty prefix or an empty directory with a
    [TypeError] and accepts everything else; once accepted, looking the
    prefix up gives the new mount, whose directory is the given one
    resolved against the working directory and whose options are the
    given ones over the defaults, and every other prefix still gives
    what it gave before. *)
Theorem X1_static_registers cwd urlPath dirPath given staticPaths :
  (static cwd urlPath dirPath given staticPaths
   = inl (TypeError "URL path and directory path are required")
   <-> urlPath = EmptyString \/ dirPath = EmptyString)
  /\ (urlPath <> EmptyString -> dirPath <> EmptyString ->
      exists staticPaths',
        static cwd urlPath dirPath given staticPaths = inr staticPaths'
        /\ mapGet urlPath staticPaths'
           = Some {| dirPath := Path.resolve cwd dirPath;
                     options := staticOptions given |}
        /\ forall other, other <> urlPath ->
             mapGet other staticPaths' = mapGet other staticPaths).
Proof.
  unfold static. split.
  - destruct urlPath, dirPath; cbn [JsString.truthy negb orb]; split;
      try (intros _; reflexivity); try discriminate;
      try (intros _; now left); try (intros _; now right).
    intros [H | H]; discriminate H.
  - intros Hu Hd. destruct urlPath; [congruence |]. destruct dirPath; [congruence |].
    cbn [JsString.truthy negb orb]. eexists. split; [reflexivity |].
    split; [apply mapGet_mapSet_eq | intros other Hne; now apply mapGet_mapSet_ne].
Qed.

Lemma X1_static_registers_witness :
  exists staticPaths',
    static "/srv/app" "/static" "public" noOptions [("/", fallbackMount)]
    = inr staticPaths'
    /\ mapGet "/static" staticPaths'
       = Some {| dirPath := "/srv/app/public"; options := staticOptions noOptions |}
    /\ mapGet "/" staticPaths' = Some fallbackMount.
Proof.
  destruct (X1_static_registers "/srv/app" "/static" "public" noOptions
              [("/", fallbackMount)]) as [_ Hreg].
  destruct (Hreg ltac:(discriminate) ltac:(discriminate))
    as (staticPaths' & Hstatic & Hget & Hother).
  exists staticPaths'. split; [exact Hstatic |]. split; [exact Hget |].
  rewrite Hother by discriminate. reflexivity.
Defined.

(** X2: registration keeps the iteration order of the registry and the
    prefixes distinct: a prefix already registered keeps its place (only
    its mount is replaced), a new prefix goes last, and the number of
    mounts grows by one exactly for a new prefix. *)
Theorem X2_static_keeps_order cwd urlPath dirPath given staticPaths staticPaths' :
  static cwd urlPath dirPath given staticPaths = inr staticPaths' ->
  (In urlPath (keys staticPaths) -> keys staticPaths' = keys staticPaths)
  /\ (~ In urlPath (keys staticPaths) ->
      keys staticPaths' = (keys staticPaths ++ [urlPath])%list)
  /\ (NoDup (keys staticPaths) -> NoDup (keys staticPaths'))
  /\ (length staticPaths' = length staticPaths <-> In urlPath (keys staticPaths)).
Proof.
  unfold static. destruct (_ || _); [discriminate |]. intros [= <-].
  pose proof (keys_mapSet urlPath
                {| dirPath := Path.resolve cwd dirPath; options := staticOptions given |}
                staticPaths) as Hkeys.
  pose proof (existsb_eqb_In urlPath (keys staticPaths)) as Hin.
  assert (Hlen : forall m : list (string * Mount), length m = length (keys m))
    by (intros m; unfold keys; now rewrite length_map).
  destruct (existsb (String.eqb urlPath) (keys staticPaths)) eqn:Hex.
  - assert (Hmem : In urlPath (keys staticPaths)) by now apply Hin.
    repeat split; try tauto; try (now rewrite Hkeys).
    intros _. now rewrite !Hlen, Hkeys.
  - assert (Hmem : ~ In urlPath (keys staticPaths))
      by (intros H; apply Hin in H; congruence).
    repeat split; try tauto.
    + intros Hnd. rewrite Hkeys. apply NoDup_app.
      split; [exact Hnd |]. split; [| apply NoDup_singleton].
      intros x Hx Hx'. apply list_elem_of_singleton in Hx' as ->.
      apply Hmem. now apply list_elem_of_In.
    + intros Heq. rewrite !Hlen, Hkeys, length_app in Heq. cbn in Heq. lia.
Qed.

Lemma X2_static_keeps_order_witness :
  exists staticPaths',
    static "/srv/app" "/" "other" noOptions
      [("/static", siteMount noOptions); ("/", fallbackMount)]
    = inr staticPaths'
    /\ keys staticPaths' = ["/static"; "/"] /\ length staticPaths' = 2%nat.
Proof.
  eexists. split; [reflexivity |].
  destruct (X2_static_keeps_order "/srv/app" "/" "other" noOptions
              [("/static", siteMount noOptions); ("/", fallbackMount)]
              _ eq_refl) as (Hsame & _ & _ & Hlen).
  split; [apply Hsame; right; now left |].
  apply Hlen. right; now left.
Defined.

(** ** The mount iteration, as a whole *)

Section Iteration.

Variable fs : FileSystem.
Variable mimeLookup : string -> option string.

Lemma passedOver_step req entry rest res :
  passedOver fs req entry ->
  handleStaticFiles fs mimeLookup req (entry :: rest) res
  = handleStaticFiles fs mimeLookup req rest res.
Proof.
  destruct entry as [urlPath mount]. intros [Hskip | [Hacc [m Hm]]].
  - now apply handleStaticFiles_skip.
  - now apply handleStaticFiles_continue with (m := m).
Qed.

(** When [#serveStaticFile] throws, nothing was written and the response
    is still open. *)
Lemma sendContent_throw req p options stats res err res' :
  sendContent fs mimeLookup req p options stats res = Throw err res' ->
  body res' = body res /\ finished res' = finished res.
Proof.
  rewrite sendContent_headers.
  set (res0 := contentHeaders mimeLookup p options stats res).
  assert (H0 : body res0 = body res /\ finished res0 = finished res) by now split.
  clearbody res0.
  destruct (headers req !! "range") as [[| c range'] |].
  - unfold bind, pipe, ret.
    destruct (createReadStream fs p None res0) as [bytes r | e r] eqn:Hcrs;
      [discriminate |].
    apply createReadStream_throw in Hcrs as [_ ->]. now intros [= _ <-].
  - cbv zeta.
    match goal with |- context [if ?b then _ else _] => destruct b end.
    + unfold bind, setHeader, status, end_, ret. discriminate.
    + unfold bind, setHeader, status, pipe, ret. cbv beta iota.
      match goal with
      | |- context [createReadStream fs p ?rg ?r0] =>
          destruct (createReadStream fs p rg r0) as [bytes r | e r] eqn:Hcrs
      end; [discriminate |].
      apply createReadStream_throw in Hcrs as [_ ->]. now intros [= _ <-].
  - unfold bind, pipe, ret.
    destruct (createReadStream fs p None res0) as [bytes r | e r] eqn:Hcrs;
      [discriminate |].
    apply createReadStream_throw in Hcrs as [_ ->]. now intros [= _ <-].
Qed.

Lemma serveStaticFile_throw req p options res err res' :
  serveStaticFile fs mimeLookup req p options res = Throw err res' ->
  body res' = body res /\ finished res' = finished res.
Proof.
  unfold serveStaticFile, tryCatch, stat.
  destruct (fs p) as [[c m] | n].
  - unfold bind, throw. destruct (isENOENT _); now intros [= _ <-].
  - unfold bind at 1. unfold ret at 1.
    destruct (isFile (statsOf n)); cbn [negb]; [| unfold throw; cbn; now intros [= _ <-]].
    assert (Hsend : forall r0,
              body r0 = body res -> finished r0 = finished res ->
              match sendContent fs mimeLookup req p options (statsOf n) r0 with
              | Return a r => Return a r
              | Throw e r => (if isENOENT e then throw (HttpError 404 "File Not Found")
                              else throw e) r
              end = Throw err res' ->
              body res' = body res /\ finished res' = finished res).
    { intros r0 Hb Hf.
      destruct (sendContent fs mimeLookup req p options (statsOf n) r0)
        as [a r | e r] eqn:Hsc; [discriminate |].
      apply sendContent_throw in Hsc as [Hb' Hf'].
      unfold throw. destruct (isENOENT e); intros [= _ <-]; split; congruence. }
    destruct (etag options).
    + unfold bind at 1. unfold setHeader at 1.
      destruct (bool_decide _).
      * unfold bind, status, end_, ret. discriminate.
      * now apply Hsend.
    + now apply Hsend.
Qed.

Lemma serveFromMount_throw req absolutePath options res err res' :
  serveFromMount fs mimeLookup req absolutePath options res = Throw err res' ->
  body res' = body res /\ finished res' = finished res.
Proof.
  unfold serveFromMount, stat.
  destruct (fs absolutePath) as [[c m] | n].
  - unfold bind, throw. now intros [= _ <-].
  - unfold bind at 1. unfold ret at 1.
    destruct (isDirectory (statsOf n)).
    + destruct (JsString.truthy (index options));
        [apply serveStaticFile_throw | unfold throw; now intros [= _ <-]].
    + destruct (JsString.startsWith "." (Path.basename absolutePath));
        [| apply serveStaticFile_throw].
      destruct (String.eqb (dotfiles options) "deny");
        [unfold throw; now intros [= _ <-] |].
      destruct (String.eqb (dotfiles options) "ignore");
        [unfold throw; now intros [= _ <-] | apply serveStaticFile_throw].
Qed.

End Iteration.

(** X3: a request whose path begins with no registered prefix is left
    alone: the handler returns [false] and the response is untouched,
    whatever the file system holds. *)
Theorem X3_no_prefix_no_answer fs mimeLookup req staticPaths res :
  Forall (fun entry => JsString.startsWith (fst entry) (path req) = false) staticPaths ->
  handleStaticFiles fs mimeLookup req staticPaths res = Return (JsBool false) res.
Proof.
  induction 1 as [| [urlPath mount] rest Hhead _ IH]; [reflexivity |].
  rewrite handleStaticFiles_skip by exact Hhead. exact IH.
Qed.

Lemma X3_no_prefix_no_answer_witness :
  handleStaticFiles siteFiles siteMime (get "/api/users")
    [("/static", siteMount noOptions); ("/assets", fallbackMount)] freshResponse
  = Return (JsBool false) freshResponse.
Proof.
  apply X3_no_prefix_no_answer.
  repeat constructor.
Defined.

(** X4: sequential fallback.  Mounts whose prefix does not match, or
    whose resolved path is missing, are passed over without a trace: the
    answer to the request is the answer of the mounts that follow them. *)
Theorem X4_fallback_to_later_mounts fs mimeLookup req before after res :
  Forall (passedOver fs req) before ->
  handleStaticFiles fs mimeLookup req (before ++ after)%list res
  = handleStaticFiles fs mimeLookup req after res.
Proof.
  induction 1 as [| entry rest Hhead _ IH]; [reflexivity |].
  cbn [app]. rewrite passedOver_step by exact Hhead. exact IH.
Qed.

(** X5: the first mount wins.  When a mount accepts the request and the
    path it resolves to is there (whatever its kind), the mounts
    registered after it play no part in the answer. *)
Theorem X5_first_mount_wins fs mimeLookup req urlPath mount rest rest' res :
  accepted urlPath mount req ->
  (forall m, fs (resolved urlPath mount req) <> inl ("ENOENT", m)) ->
  handleStaticFiles fs mimeLookup req ((urlPath, mount) :: rest) res
  = handleStaticFiles fs mimeLookup req ((urlPath, mount) :: rest') res.
Proof.
  intros Hacc Hthere.
  rewrite !handleStaticFiles_accepted by exact Hacc.
  pose proof (serveFromMount_outcome fs mimeLookup req (resolved urlPath mount req)
                (options mount) res) as Hout.
  destruct (serveFromMount _ _ _ _ _ _) as [v r | err r]; [reflexivity |].
  destruct (isENOENT err); [| reflexivity].
  destruct (Hout eq_refl) as [_ [m Hm]]. now destruct (Hthere m).
Qed.

(** X6: when the static handler throws, no byte has been written, the
    response is still open, and the error is never a bare [ENOENT]: the
    error formatter gets a response it can still answer. *)
Theorem X6_throw_leaves_response_open fs mimeLookup req staticPaths res err res' :
  handleStaticFiles fs mimeLookup req staticPaths res = Throw err res' ->
  body res' = body res /\ finished res' = finished res /\ isENOENT err = false.
Proof.
  induction staticPaths as [| [urlPath mount] rest IH]; [discriminate |].
  cbn [handleStaticFiles].
  destruct (JsString.startsWith urlPath (path req)); [| exact IH].
  destruct (negb _); [unfold throw; intros [= <- <-]; now repeat split |].
  unfold tryCatch.
  match goal with
  | |- context [serveFromMount fs mimeLookup req ?p ?o res] =>
      pose proof (serveFromMount_outcome fs mimeLookup req p o res) as Hout;
      pose proof (serveFromMount_throw fs mimeLookup req p o res) as Hthrow;
      destruct (serveFromMount fs mimeLookup req p o res) as [v0 r0 | e r0]
  end; [discriminate |].
  destruct (isENOENT e) eqn:He.
  - destruct (Hout eq_refl) as [-> _]. exact IH.
  - unfold throw. intros [= <- <-].
    destruct (Hthrow e r0 eq_refl) as [Hb Hf]. now repeat split.
Qed.

Lemma X4_fallback_to_later_mounts_witness :
  let req := get "/static/.env" in
  let unrelated := ("/assets", siteMount noOptions) in
  let emptyRoot := ("/static", {| dirPath := "/srv/empty"; options := staticOptions noOptions |}) in
  handleStaticFiles siteFiles siteMime req [unrelated; emptyRoot; ("/", fallbackMount)]
    freshResponse
  = handleStaticFiles siteFiles siteMime req [("/", fallbackMount)] freshResponse.
Proof.
  intros req unrelated emptyRoot.
  apply (X4_fallback_to_later_mounts siteFiles siteMime req [unrelated; emptyRoot]
           [("/", fallbackMount)] freshResponse).
  constructor; [now left |]. constructor; [| constructor].
  right. split; [split; reflexivity |]. eexists. reflexivity.
Defined.

Lemma X5_first_mount_wins_witness :
  handleStaticFiles siteFiles siteMime (get "/static/.env")
    [("/static", siteMount noOptions)] freshResponse
  = handleStaticFiles siteFiles siteMime (get "/static/.env")
      [("/static", siteMount noOptions); ("/", fallbackMount)] freshResponse.
Proof.
  apply (X5_first_mount_wins siteFiles siteMime (get "/static/.env") "/static"
           (siteMount noOptions) [] [("/", fallbackMount)] freshResponse
           accepted_site_env).
  intros m. vm_compute. discriminate.
Defined.

Lemma X6_throw_leaves_response_open_witness :
  exists err res',
    handleStaticFiles siteFiles siteMime (getRange "/static/index.html" "bytes=5-2")
      [("/static", siteMount noOptions)] freshResponse
    = Throw err res'
    /\ body res' = [] /\ finished res' = false /\ isENOENT err = false.
Proof.
  eexists. eexists. split; [vm_compute; reflexivity |].
  apply (X6_throw_leaves_response_open siteFiles siteMime
           (getRange "/static/index.html" "bytes=5-2")
           [("/static", siteMount noOptions)] freshResponse).
  vm_compute. reflexivity.
Defined.

(** ** What the handlers write *)

Section Frame.

Variable Q : Response -> Prop.
Hypothesis Q_setHeader :
  forall name value res, In name writtenHeaders -> Q res ->
    Q (responseOf (setHeader name value res)).
Hypothesis Q_status :
  forall n res, In n writtenStatuses -> Q res -> Q (responseOf (status n res)).
Hypothesis Q_end : forall res, Q res -> Q (responseOf (end_ res)).
Hypothesis Q_pipe : forall bytes res, Q res -> Q (responseOf (pipe bytes res)).

Variable fs : FileSystem.
Variable mimeLookup : string -> option string.

Lemma preserves_ret {A} (a : A) : preserves Q (ret a).
Proof. intros res H. exact H. Qed.

Lemma preserves_throw {A} err : preserves Q (@throw A err).
Proof. intros res H. exact H. Qed.

Lemma preserves_bind {A B} (m : handler A) (k : A -> handler B) :
  preserves Q m -> (forall a, preserves Q (k a)) -> preserves Q (bind m k).
Proof.
  intros Hm Hk res H. unfold bind. specialize (Hm res H).
  destruct (m res) as [a r | err r]; [now apply Hk | exact Hm].
Qed.

Lemma preserves_tryCatch {A} (m : handler A) (h : error -> handler A) :
  preserves Q m -> (forall err, preserves Q (h err)) -> preserves Q (tryCatch m h).
Proof.
  intros Hm Hh res H. unfold tryCatch. specialize (Hm res H).
  destruct (m res) as [a r | err r]; [exact Hm | now apply Hh].
Qed.

Lemma preserves_setHeader name value :
  In name writtenHeaders -> preserves Q (setHeader name value).
Proof. intros Hin res H. now apply Q_setHeader. Qed.

Lemma preserves_status n : In n writtenStatuses -> preserves Q (status n).
Proof. intros Hin res H. now apply Q_status. Qed.

Lemma preserves_stat p : preserves Q (stat fs p).
Proof. intros res H. unfold stat. now destruct (fs p) as [[c m] | n]. Qed.

Lemma preserves_createReadStream p range : preserves Q (createReadStream fs p range).
Proof.
  intros res H. unfold createReadStream, ret, throw.
  destruct range as [[[| s] [| e]] |]; try exact H.
  now destruct ((0 <=? s) && (0 <=? e) && (s <=? e)).
Qed.

Lemma preserves_end : preserves Q end_.
Proof. exact Q_end. Qed.

Lemma preserves_pipe bytes : preserves Q (pipe bytes).
Proof. intros res H. now apply Q_pipe. Qed.

Ltac frame :=
  repeat first
    [ apply preserves_ret | apply preserves_throw | apply preserves_stat
    | apply preserves_createReadStream | apply preserves_end | apply preserves_pipe
    | apply preserves_setHeader; cbv; tauto
    | apply preserves_status; cbv; tauto
    | apply preserves_bind; [| intro ] ].

Lemma preserves_sendContent req p options stats :
  preserves Q (sendContent fs mimeLookup req p options stats).
Proof.
  unfold sendContent. frame.
  - destruct (maxAge options =? 0); frame.
  - destruct (headers req !! "range") as [[| c range'] |]; frame.
    cbv zeta. match goal with |- context [if ?b then _ else _] => destruct b end; frame.
Qed.

Lemma preserves_serveStaticFile req p options :
  preserves Q (serveStaticFile fs mimeLookup req p options).
Proof.
  unfold serveStaticFile. apply preserves_tryCatch.
  - apply preserves_bind; [apply preserves_stat | intros stats].
    destruct (negb (isFile stats)); [apply preserves_throw |].
    destruct (etag options); [| apply preserves_sendContent].
    apply preserves_bind; [apply preserves_setHeader; cbv; tauto | intros _].
    destruct (bool_decide _); [frame | apply preserves_sendContent].
  - intros err. destruct (isENOENT err); apply preserves_throw.
Qed.

Lemma preserves_serveFromMount req absolutePath options :
  preserves Q (serveFromMount fs mimeLookup req absolutePath options).
Proof.
  unfold serveFromMount.
  apply preserves_bind; [apply preserves_stat | intros stats].
  destruct (isDirectory stats).
  - destruct (JsString.truthy (index options));
      [apply preserves_serveStaticFile | apply preserves_throw].
  - destruct (JsString.startsWith "." (Path.basename absolutePath));
      [| apply preserves_serveStaticFile].
    destruct (String.eqb (dotfiles options) "deny"); [apply preserves_throw |].
    destruct (String.eqb (dotfiles options) "ignore");
      [apply preserves_throw | apply preserves_serveStaticFile].
Qed.

Lemma preserves_handleStaticFiles req staticPaths :
  preserves Q (handleStaticFiles fs mimeLookup req staticPaths).
Proof.
  induction staticPaths as [| [urlPath mount] rest IH]; cbn [handleStaticFiles];
    [apply preserves_ret |].
  destruct (JsString.startsWith urlPath (path req)); [| exact IH].
  destruct (negb _); [apply preserves_throw |].
  apply preserves_tryCatch; [apply preserves_serveFromMount |].
  intros err. destruct (isENOENT err); [exact IH | apply preserves_throw].
Qed.

End Frame.

(** X7: the only status codes the static handler ever sets are [304],
    [416] and [206]; whatever the request, the registry and the file
    system, the response ends with one of them or with the status it
    came with.  In particular it never sets [404] or [403]: those are
    thrown. *)
Theorem X7_status_codes_written fs mimeLookup req staticPaths res :
  let res' := responseOf (handleStaticFiles fs mimeLookup req staticPaths res) in
  statusCode res' = statusCode res \/ In (statusCode res') writtenStatuses.
Proof.
  apply (preserves_handleStaticFiles
           (fun r => statusCode r = statusCode res \/ In (statusCode r) writtenStatuses)).
  - intros name value r _ H. exact H.
  - intros n r Hn _. right. exact Hn.
  - intros r H. exact H.
  - intros bytes r H. exact H.
  - now left.
Qed.

Lemma toLowerCase_differs name name' :
  toLowerCase name <> toLowerCase name' -> name <> name'.
Proof. intros H ->. now apply H. Qed.

(** X8: the static handler writes six headers and no other: a header
    whose name is none of the six, case apart (a cookie, the
    [Content-Disposition] of a download), is after the call what it was
    before, and bytes already written stay in front of what the handler
    writes. *)
Theorem X8_other_headers_untouched fs mimeLookup req staticPaths res name :
  (forall written, In written writtenHeaders ->
     toLowerCase name <> toLowerCase written) ->
  let res' := responseOf (handleStaticFiles fs mimeLookup req staticPaths res) in
  outHeaders res' !! name = outHeaders res !! name
  /\ exists written, body res' = (body res ++ written)%list.
Proof.
  intros Hname res'. split.
  - apply (preserves_handleStaticFiles
             (fun r => outHeaders r !! name = outHeaders res !! name)).
    + intros name' value r Hin H. cbn [responseOf setHeader outHeaders].
      rewrite lookup_insert_ne
        by (apply not_eq_sym, toLowerCase_differs; now apply Hname).
      exact H.
    + intros n r _ H. exact H.
    + intros r H. exact H.
    + intros bytes r H. exact H.
    + reflexivity.
  - apply (preserves_handleStaticFiles
             (fun r => exists written, body r = (body res ++ written)%list)).
    + intros name' value r _ H. exact H.
    + intros n r _ H. exact H.
    + intros r H. exact H.
    + intros bytes r [written H]. exists (written ++ bytes)%list.
      cbn [responseOf pipe body]. rewrite H. now rewrite app_assoc.
    + exists []. now rewrite app_nil_r.
Qed.

Lemma X8_other_headers_untouched_witness :
  let res := {| statusCode := 200;
                outHeaders := {[ "Set-Cookie" := "sid=1" ]};
                body := []; finished := false |} in
  outHeaders
    (responseOf (handleStaticFiles siteFiles siteMime (get "/static/index.html")
                   [("/static", siteMount noOptions)] res))
    !! "Set-Cookie"
  = Some "sid=1".
Proof.
  intros res.
  destruct (X8_other_headers_untouched siteFiles siteMime (get "/static/index.html")
              [("/static", siteMount noOptions)] res "Set-Cookie") as [Hkeep _].
  - intros written Hin. cbv in Hin.
    repeat (destruct Hin as [<- | Hin]; [discriminate |]). destruct Hin.
  - rewrite Hkeep. reflexivity.
Defined.

(** ** Conditional requests *)

Section Conditional.

Variable fs : FileSystem.
Variable mimeLookup : string -> option string.

(** [sendContent] sets [416] or [206], or no status at all. *)
Lemma sendContent_status req p options stats res :
  let res' := responseOf (sendContent fs mimeLookup req p options stats res) in
  statusCode res' = statusCode res \/ statusCode res' = 416 \/ statusCode res' = 206.
Proof.
  cbv zeta. rewrite sendContent_headers.
  set (res0 := contentHeaders mimeLookup p options stats res).
  assert (H0 : statusCode res0 = statusCode res) by reflexivity.
  clearbody res0.
  assert (Hfull : statusCode (responseOf
            ((stream <- createReadStream fs p None ;; pipe stream ;; ret JsUndefined)%handler
               res0)) = statusCode res).
  { unfold bind, pipe, ret, createReadStream. exact H0. }
  destruct (headers req !! "range") as [[| c range'] |]; try (left; exact Hfull).
  cbv zeta.
  match goal with |- context [if ?b then _ else _] => destruct b end.
  - right. left. reflexivity.
  - right. right. unfold bind, setHeader, status, pipe, ret. cbv beta iota.
    match goal with
    | |- context [createReadStream fs p ?rg ?r0] =>
        destruct (createReadStream fs p rg r0) as [bytes r | err r] eqn:Hcrs
    end.
    + apply createReadStream_return in Hcrs as ->. reflexivity.
    + apply createReadStream_throw in Hcrs as [_ ->]. reflexivity.
Qed.

End Conditional.

(** X9: for a regular file, a response that was not [304] before
    becomes [304] exactly when validators are on for the mount and the
    request's [If-None-Match] is, character for character, the file's
    validator; any other value, a list of validators or [*] included,
    gets the content. *)
Theorem X9_not_modified_iff fs mimeLookup req p options content mtimeMs res :
  fs p = inr (RegularFile content mtimeMs) ->
  statusCode res <> 304 ->
  let validator := etagOf (statsOf (RegularFile content mtimeMs)) in
  statusCode (responseOf (serveStaticFile fs mimeLookup req p options res)) = 304
  <-> etag options = true /\ headers req !! "if-none-match" = Some validator.
Proof.
  intros Hfs Hstatus validator. split.
  - intros H304.
    destruct (etag options) eqn:Hetag;
      [destruct (decide (headers req !! "if-none-match" = Some validator))
         as [Hmatch | Hmiss]; [now split |] |].
    + exfalso.
      rewrite (serveStaticFile_regular fs mimeLookup req p options content mtimeMs res Hfs)
        in H304 by (intros _; exact Hmiss).
      pose proof (sendContent_status fs mimeLookup req p options
                    (statsOf (RegularFile content mtimeMs))
                    (withValidator options (statsOf (RegularFile content mtimeMs)) res))
        as Hst.
      cbv zeta in Hst. rewrite H304 in Hst.
      unfold withValidator in Hst. rewrite Hetag in Hst. cbn [statusCode] in Hst.
      destruct Hst as [Hst | [Hst | Hst]]; [congruence | discriminate | discriminate].
    + exfalso.
      rewrite (serveStaticFile_regular fs mimeLookup req p options content mtimeMs res Hfs)
        in H304 by (intros Hon; congruence).
      pose proof (sendContent_status fs mimeLookup req p options
                    (statsOf (RegularFile content mtimeMs))
                    (withValidator options (statsOf (RegularFile content mtimeMs)) res))
        as Hst.
      cbv zeta in Hst. rewrite H304 in Hst.
      unfold withValidator in Hst. rewrite Hetag in Hst.
      destruct Hst as [Hst | [Hst | Hst]]; [congruence | discriminate | discriminate].
  - intros [Hetag Hmatch].
    now rewrite (serveStaticFile_fresh fs mimeLookup req p options content mtimeMs res
                   Hfs Hetag Hmatch).
Qed.

Lemma X9_not_modified_iff_witness :
  statusCode
    (responseOf
       (serveStaticFile siteFiles siteMime
          {| path := "/static/index.html"; headers := {[ "if-none-match" := "*" ]} |}
          "/var/www/index.html" (staticOptions noOptions) freshResponse))
  <> 304.
Proof.
  intros H304.
  apply (X9_not_modified_iff siteFiles siteMime
           {| path := "/static/index.html"; headers := {[ "if-none-match" := "*" ]} |}
           "/var/www/index.html" (staticOptions noOptions)
           (bytesOf "<h1>hi</h1>") 1700000000000 freshResponse
           eq_refl ltac:(discriminate)) in H304.
  destruct H304 as [_ Hmatch]. vm_compute in Hmatch. discriminate Hmatch.
Defined.

(** ** Whole files and directories *)

Section WholeFiles.

Variable fs : FileSystem.
Variable mimeLookup : string -> option string.

(** A plain request for a regular file, through [#serveStaticFile]. *)
Lemma serveStaticFile_plain req p options content mtimeMs res :
  fs p = inr (RegularFile content mtimeMs) ->
  headers req !! "range" = None ->
  notFresh req options (statsOf (RegularFile content mtimeMs)) ->
  exists res',
    serveStaticFile fs mimeLookup req p options res = Return JsUndefined res'
    /\ statusCode res' = statusCode res
    /\ outHeaders res' !! "Content-Length" = Some (JsNum.showZ (Z.of_nat (length content)))
    /\ outHeaders res' !! "Content-Type"
       = Some (match mimeLookup p with
               | Some t => if JsString.truthy t then t else "application/octet-stream"
               | None => "application/octet-stream"
               end)
    /\ outHeaders res' !! "ETag"
       = (if etag options
          then Some (etagOf (statsOf (RegularFile content mtimeMs)))
          else outHeaders res !! "ETag")
    /\ body res' = (body res ++ content)%list
    /\ finished res' = true.
Proof.
  intros Hfs Hrange Hfresh.
  rewrite (serveStaticFile_regular fs mimeLookup req p options content mtimeMs res Hfs Hfresh).
  rewrite sendContent_full by now left.
  eexists. split; [reflexivity |].
  cbn [statusCode outHeaders body finished contentHeaders].
  rewrite Hfs. cbn [contentOf].
  unfold withValidator.
  destruct (etag options); cbn [statusCode outHeaders body finished statsOf size];
    destruct (maxAge options =? 0);
    rewrite ?(lookup_insert_ne _ "Cache-Control") by discriminate;
    rewrite ?lookup_insert_eq;
    rewrite ?(lookup_insert_ne _ "Content-Length") by discriminate;
    rewrite ?lookup_insert_eq;
    rewrite ?(lookup_insert_ne _ "Content-Type") by discriminate;
    rewrite ?lookup_insert_eq;
    repeat split; reflexivity.
Qed.

End WholeFiles.

(** X10: a plain request (no [Range], no matching validator) for a
    regular file of a mount that accepts it, whose name does not begin
    with a dot, is answered by returning [undefined] with the status
    untouched ([200]), [Content-Length] equal to the file's size,
    [Content-Type] from the lookup or [application/octet-stream] when it
    finds nothing, and the whole file as the body. *)
Theorem X10_whole_file fs mimeLookup req urlPath mount rest res content mtimeMs :
  accepted urlPath mount req ->
  let absolutePath := resolved urlPath mount req in
  fs absolutePath = inr (RegularFile content mtimeMs) ->
  JsString.startsWith "." (Path.basename absolutePath) = false ->
  headers req !! "range" = None ->
  notFresh req (options mount) (statsOf (RegularFile content mtimeMs)) ->
  exists res',
    handleStaticFiles fs mimeLookup req ((urlPath, mount) :: rest) res
    = Return JsUndefined res'
    /\ statusCode res' = statusCode res
    /\ outHeaders res' !! "Content-Length" = Some (JsNum.showZ (Z.of_nat (length content)))
    /\ outHeaders res' !! "Content-Type"
       = Some (match mimeLookup absolutePath with
               | Some t => if JsString.truthy t then t else "application/octet-stream"
               | None => "application/octet-stream"
               end)
    /\ body res' = (body res ++ content)%list
    /\ finished res' = true.
Proof.
  intros Hacc absolutePath Hfs Hdot Hrange Hfresh.
  rewrite handleStaticFiles_accepted by exact Hacc. fold absolutePath.
  unfold serveFromMount, stat. rewrite Hfs.
  unfold bind at 1. unfold ret at 1. cbn [statsOf isDirectory]. rewrite Hdot.
  rewrite serveStaticFile_through_catch.
  destruct (serveStaticFile_plain fs mimeLookup req absolutePath (options mount)
              content mtimeMs res Hfs Hrange Hfresh)
    as (res' & -> & Hst & Hcl & Hct & _ & Hb & Hf).
  exists res'. repeat split; assumption.
Qed.

Lemma accepted_site_index :
  accepted "/static" (siteMount noOptions) (get "/static/index.html").
Proof. split; reflexivity. Defined.

Lemma notFresh_get p options stats : notFresh (get p) options stats.
Proof. intros _. vm_compute. discriminate. Defined.

Lemma X10_whole_file_witness :
  exists res',
    handleStaticFiles siteFiles siteMime (get "/static/index.html")
      [("/static", siteMount noOptions)] freshResponse
    = Return JsUndefined res'
    /\ statusCode res' = 200
    /\ outHeaders res' !! "Content-Length" = Some "11"
    /\ outHeaders res' !! "Content-Type" = Some "text/html"
    /\ body res' = bytesOf "<h1>hi</h1>"
    /\ finished res' = true.
Proof.
  apply (X10_whole_file siteFiles siteMime (get "/static/index.html") "/static"
           (siteMount noOptions) [] freshResponse (bytesOf "<h1>hi</h1>") 1700000000000
           accepted_site_index eq_refl eq_refl eq_refl (notFresh_get _ _ _)).
Defined.

(** X11: a request that resolves to a directory, under a mount with an
    index name, is answered with the index file of that directory when
    it is a regular file: its bytes, its size, the status untouched.
    Neither the dotfile policy nor a dot in front of the directory's or
    the index file's name plays a part. *)
Theorem X11_directory_index fs mimeLookup req urlPath mount rest res content mtimeMs :
  accepted urlPath mount req ->
  let absolutePath := resolved urlPath mount req in
  let indexPath := Path.join absolutePath (index (options mount)) in
  fs absolutePath = inr Directory ->
  JsString.truthy (index (options mount)) = true ->
  fs indexPath = inr (RegularFile content mtimeMs) ->
  headers req !! "range" = None ->
  notFresh req (options mount) (statsOf (RegularFile content mtimeMs)) ->
  exists res',
    handleStaticFiles fs mimeLookup req ((urlPath, mount) :: rest) res
    = Return JsUndefined res'
    /\ statusCode res' = statusCode res
    /\ outHeaders res' !! "Content-Length" = Some (JsNum.showZ (Z.of_nat (length content)))
    /\ body res' = (body res ++ content)%list
    /\ finished res' = true.
Proof.
  intros Hacc absolutePath indexPath Hdir Hindex Hfs Hrange Hfresh.
  rewrite handleStaticFiles_accepted by exact Hacc. fold absolutePath.
  unfold serveFromMount, stat. rewrite Hdir.
  unfold bind at 1. unfold ret at 1. cbn [statsOf isDirectory]. rewrite Hindex.
  fold indexPath. rewrite serveStaticFile_through_catch.
  destruct (serveStaticFile_plain fs mimeLookup req indexPath (options mount)
              content mtimeMs res Hfs Hrange Hfresh)
    as (res' & -> & Hst & Hcl & _ & _ & Hb & Hf).
  exists res'. repeat split; assumption.
Qed.

Lemma X11_directory_index_witness :
  exists res',
    handleStaticFiles siteFiles siteMime (get "/static/")
      [("/static", siteMount noOptions)] freshResponse
    = Return JsUndefined res'
    /\ statusCode res' = 200
    /\ outHeaders res' !! "Content-Length" = Some "11"
    /\ body res' = bytesOf "<h1>hi</h1>"
    /\ finished res' = true.
Proof.
  apply (X11_directory_index siteFiles siteMime (get "/static/") "/static"
           (siteMount noOptions) [] freshResponse (bytesOf "<h1>hi</h1>") 1700000000000).
  - split; reflexivity.
  - reflexivity.
  - reflexivity.
  - reflexivity.
  - reflexivity.
  - apply notFresh_get.
Defined.

(** X12: a directory is never listed.  When the request resolves to a
    directory and there is no regular index file to send (no index name,
    or the index path is missing, is itself a directory, or cannot be
    read), the handler throws, with the response as it was: a [404] in
    every case but that of a file-system error other than [ENOENT],
    which is thrown as it is. *)
Theorem X12_directory_never_listed fs mimeLookup req urlPath mount rest res :
  accepted urlPath mount req ->
  let absolutePath := resolved urlPath mount req in
  let indexPath := Path.join absolutePath (index (options mount)) in
  fs absolutePath = inr Directory ->
  (JsString.truthy (index (options mount)) = true ->
   forall content mtimeMs, fs indexPath <> inr (RegularFile content mtimeMs)) ->
  exists err,
    handleStaticFiles fs mimeLookup req ((urlPath, mount) :: rest) res = Throw err res
    /\ (status_of err = Some 404
        \/ exists c m, fs indexPath = inl (c, m) /\ c <> "ENOENT" /\ err = NodeError c m).
Proof.
  intros Hacc absolutePath indexPath Hdir Hnone.
  rewrite handleStaticFiles_accepted by exact Hacc. fold absolutePath.
  unfold serveFromMount, stat. rewrite Hdir.
  unfold bind at 1. unfold ret at 1. cbn [statsOf isDirectory].
  destruct (JsString.truthy (index (options mount))) eqn:Hindex.
  - fold indexPath. rewrite serveStaticFile_through_catch.
    specialize (Hnone eq_refl).
    destruct (fs indexPath) as [[c m] | n] eqn:Hfs.
    + unfold serveStaticFile, tryCatch, stat. rewrite Hfs. unfold bind, throw.
      destruct (isENOENT (NodeError c m)) eqn:Hc.
      * eexists. split; [reflexivity | now left].
      * eexists. split; [reflexivity |]. right. exists c, m.
        repeat split. intros ->. discriminate Hc.
    + destruct n as [content mtimeMs | |].
      * now destruct (Hnone content mtimeMs).
      * rewrite (serveStaticFile_not_file fs mimeLookup req indexPath _ Directory res Hfs eq_refl).
        eexists. split; [reflexivity | now left].
      * rewrite (serveStaticFile_not_file fs mimeLookup req indexPath _ Special res Hfs eq_refl).
        eexists. split; [reflexivity | now left].
  - eexists. split; [reflexivity | now left].
Qed.

Lemma X12_directory_never_listed_witness :
  exists err,
    handleStaticFiles siteFiles siteMime (get "/static")
      [("/static",
        {| dirPath := "/var/www";
           options := staticOptions
                        {| givenIndex := Some "home.html"; givenDotfiles := None;
                           givenEtag := None; givenMaxAge := None |} |})]
      freshResponse
    = Throw err freshResponse
    /\ (status_of err = Some 404
        \/ exists c m,
             siteFiles (Path.join "/var/www" "home.html") = inl (c, m)
             /\ c <> "ENOENT" /\ err = NodeError c m).
Proof.
  apply (X12_directory_never_listed siteFiles siteMime (get "/static") "/static"
           {| dirPath := "/var/www";
              options := staticOptions
                           {| givenIndex := Some "home.html"; givenDotfiles := None;
                              givenEtag := None; givenMaxAge := None |} |}
           [] freshResponse).
  - split; reflexivity.
  - reflexivity.
  - intros _ content mtimeMs. vm_compute. discriminate.
Defined.

(** ** More on byte ranges *)

Section Ranges.

Import JsNum.

Variable fs : FileSystem.
Variable mimeLookup : string -> option string.

Lemma parseInt_showZ_then n c rest :
  0 <= n -> isDigit c = false -> parseInt (showZ n ++ String c rest) = Num n.
Proof.
  intros Hn Hc.
  pose proof (showZ_allDigits n Hn) as Hall.
  pose proof (readDigits_showZ n (String c rest) Hn) as Hread.
  assert (Hstop : readDigits n (String c rest) = (n, String c rest))
    by (cbn [readDigits]; now rewrite Hc).
  rewrite Hstop in Hread.
  pose proof (showZ_nonempty n) as Hne.
  destruct (showZ n) as [| d s] eqn:Hs; [congruence |].
  cbn [allDigits] in Hall. apply andb_prop in Hall as [Hd _].
  destruct (isDigit_not_special d Hd) as (Hws & Hminus & Hplus & _).
  cbn [String.append] in *.
  unfold parseInt. cbn [skipWhiteSpace]. rewrite Hws.
  destruct d as [b0 b1 b2 b3 b4 b5 b6 b7].
  destruct b0, b1, b2, b3, b4, b5, b6, b7; try discriminate Hd;
    try congruence; cbn [startsWithDigit]; rewrite ?Hd, Hread; reflexivity.
Qed.

Lemma split_digits_head d c tail :
  allDigits d = true -> c <> "-"%char ->
  exists t rest, JsString.split "-" (d ++ String c tail) = (d ++ String c t) :: rest.
Proof.
  intros Hall Hc.
  induction d as [| c0 d IH].
  - cbn [String.append JsString.split].
    rewrite (proj2 (Ascii.eqb_neq c "-") Hc).
    destruct (JsString.split "-" tail) as [| seg segs]; eauto.
  - cbn [allDigits] in Hall. apply andb_prop in Hall as [Hc0 Hd].
    destruct (isDigit_not_special c0 Hc0) as (_ & Hminus & _).
    destruct (IH Hd) as (t & rest & Heq).
    cbn [String.append JsString.split].
    rewrite (proj2 (Ascii.eqb_neq c0 "-") Hminus), Heq. eauto.
Qed.

Lemma removeFirst_digits d :
  allDigits d = true -> JsString.removeFirst "bytes=" d = d.
Proof.
  induction d as [| c d IH]; intros Hall; [reflexivity |].
  cbn [allDigits] in Hall. apply andb_prop in Hall as [Hc Hd].
  cbn [JsString.removeFirst JsString.startsWith].
  destruct (Ascii.eqb_spec "b" c) as [<- | _]; [discriminate Hc |].
  now rewrite (IH Hd).
Qed.

Lemma removeFirst_digits_sep d1 d2 :
  allDigits d1 = true -> allDigits d2 = true ->
  JsString.removeFirst "bytes=" (d1 ++ String "-" d2) = d1 ++ String "-" d2.
Proof.
  intros H1 H2. induction d1 as [| c d IH].
  - cbn [String.append JsString.removeFirst JsString.startsWith].
    change (Ascii.eqb "b" "-") with false. cbv iota.
    now rewrite removeFirst_digits.
  - cbn [allDigits] in H1. apply andb_prop in H1 as [Hc Hd].
    cbn [String.append JsString.removeFirst JsString.startsWith].
    destruct (Ascii.eqb_spec "b" c) as [<- | _]; [discriminate Hc |].
    now rewrite (IH Hd).
Qed.

(** Two range headers from which the handler computes the same bounds
    get the same answer. *)
Lemma sendContent_same_bounds req req' p options stats h h' res :
  headers req !! "range" = Some h ->
  headers req' !! "range" = Some h' ->
  JsString.truthy h = true -> JsString.truthy h' = true ->
  let parts := JsString.split "-" (JsString.removeFirst "bytes=" h) in
  let parts' := JsString.split "-" (JsString.removeFirst "bytes=" h') in
  parseInt (nth 0 parts EmptyString) = parseInt (nth 0 parts' EmptyString) ->
  (if JsString.truthy (nth 1 parts EmptyString)
   then parseInt (nth 1 parts EmptyString) else Num (size stats - 1))
  = (if JsString.truthy (nth 1 parts' EmptyString)
     then parseInt (nth 1 parts' EmptyString) else Num (size stats - 1)) ->
  sendContent fs mimeLookup req p options stats res
  = sendContent fs mimeLookup req' p options stats res.
Proof.
  intros Hh Hh' Ht Ht' parts parts' Hstart Hend.
  rewrite !sendContent_headers, Hh, Hh'.
  destruct h as [| c t]; [discriminate Ht |].
  destruct h' as [| c' t']; [discriminate Ht' |].
  cbv zeta. fold parts parts'. rewrite Hstart, Hend. reflexivity.
Qed.

(** The request enters [#serveStaticFile] through two headers only. *)
Lemma serveStaticFile_same req req' p options res :
  headers req !! "if-none-match" = headers req' !! "if-none-match" ->
  (forall stats r,
      sendContent fs mimeLookup req p options stats r
      = sendContent fs mimeLookup req' p options stats r) ->
  serveStaticFile fs mimeLookup req p options res
  = serveStaticFile fs mimeLookup req' p options res.
Proof.
  intros Hinm Hsend. unfold serveStaticFile, tryCatch, stat.
  destruct (fs p) as [[c m] | n]; [reflexivity |].
  unfold bind, ret, setHeader, status, end_. cbv beta iota.
  destruct (negb (isFile (statsOf n))); [reflexivity |].
  destruct (etag options).
  - rewrite Hinm.
    destruct (bool_decide _); [reflexivity | now rewrite Hsend].
  - now rewrite Hsend.
Qed.

End Ranges.

Section RangeAnswers.

Variable fs : FileSystem.
Variable mimeLookup : string -> option string.

(** The body of a range inside the file. *)
Lemma serveStaticFile_window req p options content mtimeMs start end_off res :
  fs p = inr (RegularFile content mtimeMs) ->
  notFresh req options (statsOf (RegularFile content mtimeMs)) ->
  headers req !! "range" = Some (rangeHeader start end_off) ->
  let sz := Z.of_nat (length content) in
  0 <= start <= lastOffset sz end_off ->
  lastOffset sz end_off < sz ->
  exists res',
    serveStaticFile fs mimeLookup req p options res = Return JsUndefined res'
    /\ statusCode res' = 206
    /\ outHeaders res' !! "Content-Length"
       = Some (JsNum.showZ (lastOffset sz end_off - start + 1))
    /\ body res' = (body res ++ window start (lastOffset sz end_off) content)%list.
Proof.
  intros Hfs Hfresh Hrange sz Hs He.
  set (stats := statsOf (RegularFile content mtimeMs)) in *.
  assert (Hsize : size stats = sz) by reflexivity.
  assert (Hend : forall e', end_off = Some e' -> 0 <= e').
  { intros e' ->. cbn [lastOffset] in Hs. lia. }
  rewrite (serveStaticFile_regular fs mimeLookup req p options content mtimeMs res Hfs Hfresh).
  fold stats.
  rewrite (sendContent_partial fs mimeLookup req p options stats start end_off)
    by (try assumption; rewrite Hsize; assumption).
  rewrite Hsize, Hfs. cbn [contentOf].
  eexists. split; [reflexivity |]. cbn [statusCode outHeaders body].
  split; [reflexivity |]. split; [now rewrite lookup_insert_eq |].
  unfold withValidator. now destruct (etag options).
Qed.

(** The answer to a range that reaches past the file. *)
Lemma serveStaticFile_416 req p options content mtimeMs start end_off res :
  fs p = inr (RegularFile content mtimeMs) ->
  notFresh req options (statsOf (RegularFile content mtimeMs)) ->
  headers req !! "range" = Some (rangeHeader start end_off) ->
  0 <= start ->
  (forall e, end_off = Some e -> 0 <= e) ->
  let sz := Z.of_nat (length content) in
  sz <= start \/ sz <= lastOffset sz end_off ->
  exists res',
    serveStaticFile fs mimeLookup req p options res = Return JsUndefined res'
    /\ statusCode res' = 416
    /\ outHeaders res' !! "Content-Range" = Some ("bytes */" ++ JsNum.showZ sz)
    /\ outHeaders res' !! "Content-Length" = Some (JsNum.showZ sz)
    /\ body res' = body res
    /\ finished res' = true.
Proof.
  intros Hfs Hfresh Hrange Hs He sz Hunsat.
  set (stats := statsOf (RegularFile content mtimeMs)) in *.
  assert (Hsize : size stats = sz) by reflexivity.
  rewrite (serveStaticFile_regular fs mimeLookup req p options content mtimeMs res Hfs Hfresh).
  fold stats.
  rewrite (sendContent_unsatisfiable fs mimeLookup req p options stats start end_off)
    by (try assumption; rewrite Hsize; assumption).
  eexists. split; [reflexivity |].
  cbn [statusCode outHeaders body finished contentHeaders]. rewrite Hsize.
  split; [reflexivity |]. split; [now rewrite lookup_insert_eq |].
  split.
  - rewrite lookup_insert_ne by discriminate.
    destruct (maxAge options =? 0);
      rewrite ?(lookup_insert_ne _ "Cache-Control") by discriminate;
      now rewrite lookup_insert_eq.
  - unfold withValidator. now destruct (etag options).
Qed.

End RangeAnswers.

(** X13: the [416] answer keeps the content headers set before the range
    was looked at: it announces [Content-Length] equal to the size of the
    whole file, while it writes no byte. *)
Theorem X13_unsatisfiable_announces_full_length
    fs mimeLookup req p options content mtimeMs start end_off res :
  fs p = inr (RegularFile content mtimeMs) ->
  notFresh req options (statsOf (RegularFile content mtimeMs)) ->
  headers req !! "range" = Some (rangeHeader start end_off) ->
  0 <= start ->
  (forall e, end_off = Some e -> 0 <= e) ->
  let sz := Z.of_nat (length content) in
  sz <= start \/ sz <= lastOffset sz end_off ->
  exists res',
    serveStaticFile fs mimeLookup req p options res = Return JsUndefined res'
    /\ statusCode res' = 416
    /\ outHeaders res' !! "Content-Length" = Some (JsNum.showZ sz)
    /\ body res' = body res.
Proof.
  intros Hfs Hfresh Hrange Hs He sz Hunsat.
  destruct (serveStaticFile_416 fs mimeLookup req p options content mtimeMs start end_off
              res Hfs Hfresh Hrange Hs He Hunsat)
    as (res' & Hout & Hst & _ & Hcl & Hb & _).
  exists res'. repeat split; assumption.
Qed.

Lemma X13_unsatisfiable_announces_full_length_witness :
  exists res',
    serveStaticFile siteFiles siteMime
      (getRange "/static/index.html" (rangeHeader 0 (Some 11)))
      "/var/www/index.html" (staticOptions noOptions) freshResponse
    = Return JsUndefined res'
    /\ statusCode res' = 416
    /\ outHeaders res' !! "Content-Length" = Some "11"
    /\ body res' = [].
Proof.
  apply (X13_unsatisfiable_announces_full_length siteFiles siteMime
           (getRange "/static/index.html" (rangeHeader 0 (Some 11)))
           "/var/www/index.html" (staticOptions noOptions)
           (bytesOf "<h1>hi</h1>") 1700000000000 0 (Some 11) freshResponse).
  - reflexivity.
  - apply notFresh_site.
  - reflexivity.
  - lia.
  - intros e [= <-]. lia.
  - right. cbn. lia.
Defined.

(** X14: a request for several ranges, [bytes=<start>-<end>,<more>], is
    answered exactly as the request for its first range alone: what
    follows the first comma is dropped without a word. *)
Theorem X14_multi_range_first_only
    fs mimeLookup req req' p options start e more res :
  headers req !! "range" = Some (rangeHeader start (Some e) ++ "," ++ more) ->
  headers req' !! "range" = Some (rangeHeader start (Some e)) ->
  headers req !! "if-none-match" = headers req' !! "if-none-match" ->
  0 <= start -> 0 <= e ->
  serveStaticFile fs mimeLookup req p options res
  = serveStaticFile fs mimeLookup req' p options res.
Proof.
  intros Hh Hh' Hinm Hs He.
  assert (Hform : rangeHeader start (Some e) ++ "," ++ more
                  = "bytes=" ++ (JsNum.showZ start
                                   ++ String "-" (JsNum.showZ e ++ String "," more))).
  { unfold rangeHeader. rewrite !append_assoc. reflexivity. }
  rewrite Hform in Hh.
  apply serveStaticFile_same; [exact Hinm |]. intros stats r.
  assert (Hends : forall e', Some e = Some e' -> 0 <= e') by (intros e' [= <-]; exact He).
  destruct (rangeHeader_bounds start (Some e) (size stats) Hs Hends) as [Hstart' Hend'].
  destruct (split_digits_head (JsNum.showZ e) "," more
              (showZ_allDigits e He) ltac:(discriminate)) as (t & rest & Hsplit).
  apply (sendContent_same_bounds fs mimeLookup req req' p options stats _ _ r Hh Hh');
    try reflexivity.
  - rewrite Hstart', removeFirst_prefix.
    rewrite split_digits_sep by now apply showZ_allDigits.
    cbn [nth]. now apply parseInt_showZ.
  - rewrite Hend', removeFirst_prefix. cbn [lastOffset].
    rewrite split_digits_sep by now apply showZ_allDigits.
    rewrite Hsplit. cbn [nth].
    assert (Htruthy : JsString.truthy (JsNum.showZ e ++ String "," t) = true).
    { pose proof (showZ_nonempty e). now destruct (JsNum.showZ e). }
    rewrite Htruthy. now apply parseInt_showZ_then.
Qed.

Lemma X14_multi_range_first_only_witness :
  serveStaticFile siteFiles siteMime
    (getRange "/static/index.html" (rangeHeader 0 (Some 1) ++ "," ++ "5-6"))
    "/var/www/index.html" (staticOptions noOptions) freshResponse
  = serveStaticFile siteFiles siteMime
      (getRange "/static/index.html" (rangeHeader 0 (Some 1)))
      "/var/www/index.html" (staticOptions noOptions) freshResponse.
Proof.
  apply (X14_multi_range_first_only siteFiles siteMime
           (getRange "/static/index.html" (rangeHeader 0 (Some 1) ++ "," ++ "5-6"))
           (getRange "/static/index.html" (rangeHeader 0 (Some 1)))
           "/var/www/index.html" (staticOptions noOptions) 0 1 "5-6" freshResponse).
  - reflexivity.
  - reflexivity.
  - reflexivity.
  - lia.
  - lia.
Defined.

(** X15: the unit is not required.  A [Range] header [<start>-<end>] (or
    [<start>-]) without [bytes=] is answered exactly as
    [bytes=<start>-<end>]: the handler strips the unit where it finds it
    and does not ask for it. *)
Theorem X15_range_unit_optional
    fs mimeLookup req req' p options start end_off res :
  headers req !! "range"
  = Some (JsNum.showZ start ++ "-"
            ++ match end_off with Some e => JsNum.showZ e | None => EmptyString end) ->
  headers req' !! "range" = Some (rangeHeader start end_off) ->
  headers req !! "if-none-match" = headers req' !! "if-none-match" ->
  0 <= start ->
  (forall e, end_off = Some e -> 0 <= e) ->
  serveStaticFile fs mimeLookup req p options res
  = serveStaticFile fs mimeLookup req' p options res.
Proof.
  intros Hh Hh' Hinm Hs He.
  set (endStr := match end_off with Some e => JsNum.showZ e | None => EmptyString end) in *.
  assert (HendStr : allDigits endStr = true).
  { subst endStr. destruct end_off as [e |]; [apply showZ_allDigits; now apply He | reflexivity]. }
  assert (Hbare : JsString.removeFirst "bytes=" (JsNum.showZ start ++ "-" ++ endStr)
                  = JsString.removeFirst "bytes=" (rangeHeader start end_off)).
  { unfold rangeHeader. fold endStr. rewrite removeFirst_prefix.
    change (JsNum.showZ start ++ "-" ++ endStr)
      with (JsNum.showZ start ++ String "-" endStr).
    apply removeFirst_digits_sep; [now apply showZ_allDigits | exact HendStr]. }
  apply serveStaticFile_same; [exact Hinm |]. intros stats r.
  apply (sendContent_same_bounds fs mimeLookup req req' p options stats _ _ r Hh Hh').
  - pose proof (showZ_nonempty start). now destruct (JsNum.showZ start).
  - reflexivity.
  - now rewrite Hbare.
  - now rewrite Hbare.
Qed.

Lemma X15_range_unit_optional_witness :
  serveStaticFile siteFiles siteMime (getRange "/static/index.html" "2-4")
    "/var/www/index.html" (staticOptions noOptions) freshResponse
  = serveStaticFile siteFiles siteMime
      (getRange "/static/index.html" (rangeHeader 2 (Some 4)))
      "/var/www/index.html" (staticOptions noOptions) freshResponse.
Proof.
  apply (X15_range_unit_optional siteFiles siteMime
           (getRange "/static/index.html" "2-4")
           (getRange "/static/index.html" (rangeHeader 2 (Some 4)))
           "/var/www/index.html" (staticOptions noOptions) 2 (Some 4) freshResponse).
  - reflexivity.
  - reflexivity.
  - reflexivity.
  - lia.
  - intros e [= <-]. lia.
Defined.

(** X16: on an empty file every range request
    [bytes=<start>-<end>] is answered [416] with
    [Content-Range: bytes */0], the request [bytes=0-] for the whole
    file included. *)
Theorem X16_empty_file_never_satisfiable
    fs mimeLookup req p options mtimeMs start end_off res :
  fs p = inr (RegularFile [] mtimeMs) ->
  notFresh req options (statsOf (RegularFile [] mtimeMs)) ->
  headers req !! "range" = Some (rangeHeader start end_off) ->
  0 <= start ->
  (forall e, end_off = Some e -> 0 <= e) ->
  exists res',
    serveStaticFile fs mimeLookup req p options res = Return JsUndefined res'
    /\ statusCode res' = 416
    /\ outHeaders res' !! "Content-Range" = Some "bytes */0"
    /\ body res' = body res
    /\ finished res' = true.
Proof.
  intros Hfs Hfresh Hrange Hs He.
  destruct (serveStaticFile_416 fs mimeLookup req p options [] mtimeMs start end_off
              res Hfs Hfresh Hrange Hs He)
    as (res' & Hout & Hst & Hcr & _ & Hb & Hf).
  - left. cbn. exact Hs.
  - exists res'. repeat split; assumption.
Qed.

(** X17: on a file that is not empty, [bytes=0-] is answered [206] with
    the whole file, and [Content-Length] is the file's size. *)
Theorem X17_open_range_from_zero
    fs mimeLookup req p options content mtimeMs res :
  fs p = inr (RegularFile content mtimeMs) ->
  notFresh req options (statsOf (RegularFile content mtimeMs)) ->
  headers req !! "range" = Some (rangeHeader 0 None) ->
  content <> [] ->
  exists res',
    serveStaticFile fs mimeLookup req p options res = Return JsUndefined res'
    /\ statusCode res' = 206
    /\ outHeaders res' !! "Content-Length" = Some (JsNum.showZ (Z.of_nat (length content)))
    /\ body res' = (body res ++ content)%list.
Proof.
  intros Hfs Hfresh Hrange Hne.
  assert (Hlen : 0 < Z.of_nat (length content)).
  { destruct content; [congruence | cbn [length]; lia]. }
  destruct (serveStaticFile_window fs mimeLookup req p options content mtimeMs 0 None
              res Hfs Hfresh Hrange)
    as (res' & Hout & Hst & Hcl & Hb).
  - cbn [lastOffset]. lia.
  - cbn [lastOffset]. lia.
  - exists res'. split; [exact Hout |]. split; [exact Hst |].
    cbn [lastOffset] in Hcl, Hb. split.
    + rewrite Hcl. f_equal. f_equal. lia.
    + rewrite Hb. f_equal. unfold window. cbn [Z.to_nat drop].
      apply take_ge. lia.
Qed.

(** X18: ranges compose.  The bodies answered to [bytes=a-b] and
    [bytes=(b+1)-c], put one after the other, are the body answered to
    [bytes=a-c]. *)
Theorem X18_consecutive_ranges_compose
    fs mimeLookup req1 req2 req3 p options content mtimeMs a b c :
  fs p = inr (RegularFile content mtimeMs) ->
  notFresh req1 options (statsOf (RegularFile content mtimeMs)) ->
  notFresh req2 options (statsOf (RegularFile content mtimeMs)) ->
  notFresh req3 options (statsOf (RegularFile content mtimeMs)) ->
  headers req1 !! "range" = Some (rangeHeader a (Some b)) ->
  headers req2 !! "range" = Some (rangeHeader (b + 1) (Some c)) ->
  headers req3 !! "range" = Some (rangeHeader a (Some c)) ->
  0 <= a <= b -> b < c -> c < Z.of_nat (length content) ->
  exists res1 res2 res3,
    serveStaticFile fs mimeLookup req1 p options freshResponse = Return JsUndefined res1
    /\ serveStaticFile fs mimeLookup req2 p options freshResponse = Return JsUndefined res2
    /\ serveStaticFile fs mimeLookup req3 p options freshResponse = Return JsUndefined res3
    /\ (body res1 ++ body res2)%list = body res3.
Proof.
  intros Hfs Hf1 Hf2 Hf3 Hr1 Hr2 Hr3 Hab Hbc Hc.
  destruct (serveStaticFile_window fs mimeLookup req1 p options content mtimeMs a (Some b)
              freshResponse Hfs Hf1 Hr1) as (res1 & Ho1 & _ & _ & Hb1);
    [cbn [lastOffset]; lia | cbn [lastOffset]; lia |].
  destruct (serveStaticFile_window fs mimeLookup req2 p options content mtimeMs (b + 1)
              (Some c) freshResponse Hfs Hf2 Hr2) as (res2 & Ho2 & _ & _ & Hb2);
    [cbn [lastOffset]; lia | cbn [lastOffset]; lia |].
  destruct (serveStaticFile_window fs mimeLookup req3 p options content mtimeMs a (Some c)
              freshResponse Hfs Hf3 Hr3) as (res3 & Ho3 & _ & _ & Hb3);
    [cbn [lastOffset]; lia | cbn [lastOffset]; lia |].
  exists res1, res2, res3. repeat split; try assumption.
  rewrite Hb1, Hb2, Hb3. cbn [lastOffset freshResponse body app]. unfold window.
  replace (Z.to_nat (b + 1)) with (Z.to_nat a + Z.to_nat (b - a + 1))%nat by lia.
  rewrite <- drop_drop, take_take_drop. f_equal. lia.
Qed.

Lemma X16_empty_file_never_satisfiable_witness :
  let emptyFiles : FileSystem := fun _ => inr (RegularFile [] 1700000000000) in
  exists res',
    serveStaticFile emptyFiles siteMime (getRange "/static/empty" (rangeHeader 0 None))
      "/var/www/empty" (staticOptions noOptions) freshResponse
    = Return JsUndefined res'
    /\ statusCode res' = 416
    /\ outHeaders res' !! "Content-Range" = Some "bytes */0"
    /\ body res' = []
    /\ finished res' = true.
Proof.
  intros emptyFiles.
  apply (X16_empty_file_never_satisfiable emptyFiles siteMime
           (getRange "/static/empty" (rangeHeader 0 None))
           "/var/www/empty" (staticOptions noOptions) 1700000000000 0 None freshResponse).
  - reflexivity.
  - apply notFresh_site.
  - reflexivity.
  - lia.
  - intros e He. discriminate He.
Defined.

Lemma X17_open_range_from_zero_witness :
  exists res',
    serveStaticFile siteFiles siteMime
      (getRange "/static/index.html" (rangeHeader 0 None))
      "/var/www/index.html" (staticOptions noOptions) freshResponse
    = Return JsUndefined res'
    /\ statusCode res' = 206
    /\ outHeaders res' !! "Content-Length" = Some "11"
    /\ body res' = bytesOf "<h1>hi</h1>".
Proof.
  apply (X17_open_range_from_zero siteFiles siteMime
           (getRange "/static/index.html" (rangeHeader 0 None))
           "/var/www/index.html" (staticOptions noOptions)
           (bytesOf "<h1>hi</h1>") 1700000000000 freshResponse).
  - reflexivity.
  - apply notFresh_site.
  - reflexivity.
  - discriminate.
Defined.

Lemma X18_consecutive_ranges_compose_witness :
  exists res1 res2 res3,
    serveStaticFile siteFiles siteMime
      (getRange "/static/index.html" (rangeHeader 0 (Some 3)))
      "/var/www/index.html" (staticOptions noOptions) freshResponse
    = Return JsUndefined res1
    /\ serveStaticFile siteFiles siteMime
         (getRange "/static/index.html" (rangeHeader (3 + 1) (Some 10)))
         "/var/www/index.html" (staticOptions noOptions) freshResponse
       = Return JsUndefined res2
    /\ serveStaticFile siteFiles siteMime
         (getRange "/static/index.html" (rangeHeader 0 (Some 10)))
         "/var/www/index.html" (staticOptions noOptions) freshResponse
       = Return JsUndefined res3
    /\ (body res1 ++ body res2)%list = body res3.
Proof.
  apply (X18_consecutive_ranges_compose siteFiles siteMime
           (getRange "/static/index.html" (rangeHeader 0 (Some 3)))
           (getRange "/static/index.html" (rangeHeader (3 + 1) (Some 10)))
           (getRange "/static/index.html" (rangeHeader 0 (Some 10)))
           "/var/www/index.html" (staticOptions noOptions)
           (bytesOf "<h1>hi</h1>") 1700000000000 0 3 10).
  - reflexivity.
  - apply notFresh_site.
  - apply notFresh_site.
  - apply notFresh_site.
  - reflexivity.
  - reflexivity.
  - reflexivity.
  - lia.
  - lia.
  - cbn. lia.
Defined.

(** ** Cache lifetime, the other cases *)

(** X19: with [maxAge] zero (the default) the handler leaves
    [Cache-Control] alone, whatever the outcome; with a positive
    [maxAge] below one second, a response with content says
    [max-age=0]. *)
Theorem X19_cache_control_edge_cases fs mimeLookup req p options res :
  (maxAge options = 0 ->
   outHeaders (responseOf (serveStaticFile fs mimeLookup req p options res))
     !! "Cache-Control"
   = outHeaders res !! "Cache-Control")
  /\ (0 < maxAge options < 1000 ->
      forall v res',
        serveStaticFile fs mimeLookup req p options res = Return v res' ->
        statusCode res' <> 304 ->
        outHeaders res' !! "Cache-Control" = Some "public, max-age=0").
Proof.
  split.
  - intros Hage.
    assert (Hsend : forall stats r,
              outHeaders r !! "Cache-Control" = outHeaders res !! "Cache-Control" ->
              outHeaders (responseOf (sendContent fs mimeLookup req p options stats r))
                !! "Cache-Control"
              = outHeaders res !! "Cache-Control").
    { intros stats r Hr. rewrite sendContent_cacheControl.
      unfold contentHeaders. cbn [outHeaders]. rewrite Hage. cbn.
      now rewrite !lookup_insert_ne by discriminate. }
    unfold serveStaticFile, tryCatch, stat.
    destruct (fs p) as [[c m] | n].
    + unfold bind, throw. now destruct (isENOENT _).
    + unfold bind at 1. unfold ret at 1.
      destruct (isFile (statsOf n)); cbn [negb]; [| reflexivity].
      assert (Hcatch : forall stats r,
                outHeaders r !! "Cache-Control" = outHeaders res !! "Cache-Control" ->
                outHeaders (responseOf
                  match sendContent fs mimeLookup req p options stats r with
                  | Return a r' => Return a r'
                  | Throw e r' => (if isENOENT e then throw (HttpError 404 "File Not Found")
                                   else throw e) r'
                  end) !! "Cache-Control"
                = outHeaders res !! "Cache-Control").
      { intros stats r Hr. specialize (Hsend stats r Hr).
        destruct (sendContent fs mimeLookup req p options stats r) as [a r' | e r'];
          [exact Hsend |].
        unfold throw. now destruct (isENOENT e). }
      destruct (etag options); [| now apply Hcatch].
      unfold bind at 1. unfold setHeader at 1.
      destruct (bool_decide _).
      * unfold bind, status, end_, ret. cbn [responseOf outHeaders].
        now rewrite lookup_insert_ne by discriminate.
      * apply Hcatch. cbn [outHeaders]. now rewrite lookup_insert_ne by discriminate.
  - intros Hage v res' Hret Hstatus.
    rewrite (serveStaticFile_cacheControl fs mimeLookup req p options res v res')
      by (try assumption; lia).
    now rewrite Z.div_small by lia.
Qed.

Lemma X19_cache_control_edge_cases_witness :
  outHeaders
    (responseOf (serveStaticFile siteFiles siteMime (get "/static/index.html")
                   "/var/www/index.html" (staticOptions noOptions) freshResponse))
    !! "Cache-Control"
  = None.
Proof.
  destruct (X19_cache_control_edge_cases siteFiles siteMime (get "/static/index.html")
              "/var/www/index.html" (staticOptions noOptions) freshResponse)
    as [Hzero _].
  rewrite Hzero by reflexivity. reflexivity.
Defined.

(** ** Prefixes and resolved paths *)

Lemma startsWith_app p s : JsString.startsWith p (p ++ s) = true.
Proof.
  induction p as [| c p IH]; [reflexivity |].
  cbn [String.append JsString.startsWith]. now rewrite Ascii.eqb_refl.
Qed.

Lemma slice_app p s : JsString.slice (String.length p) (p ++ s) = s.
Proof. induction p as [| c p IH]; [reflexivity | exact IH]. Qed.

Lemma startsWith_inv p s :
  JsString.startsWith p s = true -> s = p ++ JsString.slice (String.length p) s.
Proof.
  revert s; induction p as [| c p IH]; intros s H; [reflexivity |].
  destruct s as [| d s]; [discriminate H |].
  cbn [JsString.startsWith] in H.
  destruct (Ascii.eqb_spec c d) as [-> | _]; [| discriminate H].
  cbn [String.append String.length JsString.slice]. f_equal. now apply IH.
Qed.

(** X20: the loop consults a mount exactly when the request path
    extends its prefix as a string, segment boundaries playing no part
    (the prefix [/static] takes [/static-old/x]).  A path that does not
    extend the prefix sends the loop on to the next mount; a path
    [urlPath ++ suffix] is answered from the root joined with [suffix],
    whether [suffix] begins with a separator or not: refused when the
    joined path does not begin with the root, served or thrown by that
    mount otherwise, the next mount being tried only on [ENOENT]. *)
Theorem X20_prefix_match_is_bytewise fs mimeLookup req urlPath mount rest res :
  ((~ exists suffix, path req = urlPath ++ suffix) ->
   handleStaticFiles fs mimeLookup req ((urlPath, mount) :: rest) res
   = handleStaticFiles fs mimeLookup req rest res)
  /\ (forall suffix, path req = urlPath ++ suffix ->
        handleStaticFiles fs mimeLookup req ((urlPath, mount) :: rest) res
        = if JsString.startsWith (dirPath mount) (Path.join (dirPath mount) suffix)
          then match serveFromMount fs mimeLookup req
                       (Path.join (dirPath mount) suffix) (options mount) res with
               | Return v res' => Return v res'
               | Throw err res' =>
                   if isENOENT err
                   then handleStaticFiles fs mimeLookup req rest res'
                   else Throw err res'
               end
          else Throw (HttpError 403 "Forbidden") res).
Proof.
  split.
  - intros Hno. apply handleStaticFiles_skip.
    destruct (JsString.startsWith urlPath (path req)) eqn:Hmatch; [| reflexivity].
    exfalso. apply Hno. eexists. now apply startsWith_inv.
  - intros suffix Hpath.
    assert (Hresolved : resolved urlPath mount req = Path.join (dirPath mount) suffix)
      by (unfold resolved; now rewrite Hpath, slice_app).
    destruct (JsString.startsWith (dirPath mount) (Path.join (dirPath mount) suffix))
      eqn:Hguard.
    + rewrite handleStaticFiles_accepted, Hresolved; [reflexivity |].
      split; [rewrite Hpath; apply startsWith_app | now rewrite Hresolved].
    + apply handleStaticFiles_forbidden.
      * rewrite Hpath. apply startsWith_app.
      * now rewrite Hpath, slice_app.
Qed.

Lemma X20_prefix_match_is_bytewise_witness :
  exists res',
    handleStaticFiles dotIndexFiles siteMime (get "/static-old/x")
      [("/static", siteMount noOptions)] freshResponse
    = Return JsUndefined res'
    /\ statusCode res' = 200
    /\ body res' = bytesOf "old".
Proof.
  destruct (X20_prefix_match_is_bytewise dotIndexFiles siteMime (get "/static-old/x")
              "/static" (siteMount noOptions) [] freshResponse) as [_ Hextends].
  rewrite (Hextends "-old/x" eq_refl).
  eexists. split; [vm_compute; reflexivity |]. split; reflexivity.
Defined.

Section Normalization.

Lemma split_nonempty sep s : JsString.split sep s <> [].
Proof.
  destruct s as [| c s]; cbn [JsString.split]; [discriminate |].
  destruct (Ascii.eqb c sep); [discriminate |].
  destruct (JsString.split sep s); discriminate.
Qed.









End Normalization.



(** ** Options *)

(** X22: an option that is given overrides its default even when it is
    falsy.  A mount registered with an empty [index] has no index file:
    every request that resolves to a directory is thrown as
    [404 Not Found], the default [index.html] being out of play. *)
Theorem X22_empty_index_disables_directories
    cwd urlPath directory given staticPaths staticPaths' :
  static cwd urlPath directory given staticPaths = inr staticPaths' ->
  givenIndex given = Some EmptyString ->
  exists mount,
    mapGet urlPath staticPaths' = Some mount
    /\ forall fs mimeLookup req rest res,
         accepted urlPath mount req ->
         fs (resolved urlPath mount req) = inr Directory ->
         handleStaticFiles fs mimeLookup req ((urlPath, mount) :: rest) res
         = Throw (HttpError 404 "Not Found") res.
Proof.
  intros Hstatic Hgiven. unfold static in Hstatic.
  destruct (_ || _); [discriminate |]. injection Hstatic as <-.
  eexists. split; [apply mapGet_mapSet_eq |].
  intros fs mimeLookup req rest res Hacc Hdir.
  rewrite handleStaticFiles_accepted by exact Hacc.
  unfold serveFromMount, stat. rewrite Hdir.
  unfold bind at 1. unfold ret at 1. cbn [statsOf isDirectory options].
  unfold staticOptions. cbn [index]. rewrite Hgiven. reflexivity.
Qed.

Lemma X22_empty_index_disables_directories_witness :
  exists mount,
    dirPath mount = "/var/www"
    /\ handleStaticFiles siteFiles siteMime (get "/static/") [("/static", mount)]
         freshResponse
       = Throw (HttpError 404 "Not Found") freshResponse.
Proof.
  destruct (X22_empty_index_disables_directories "/srv/app" "/static" "/var/www"
              {| givenIndex := Some EmptyString; givenDotfiles := None;
                 givenEtag := None; givenMaxAge := None |} [] _ eq_refl eq_refl)
    as (mount & Hget & Hdirs).
  exists mount. vm_compute in Hget. injection Hget as <-.
  split; [reflexivity |].
  apply Hdirs; [split; reflexivity | reflexivity].
Defined.

Section NoValidator.

Variable fs : FileSystem.
Variable mimeLookup : string -> option string.

(** [sendContent] does not touch the validator. *)
Lemma sendContent_etag req p options stats res :
  outHeaders (responseOf (sendContent fs mimeLookup req p options stats res)) !! "ETag"
  = outHeaders res !! "ETag".
Proof.
  rewrite sendContent_headers.
  set (res0 := contentHeaders mimeLookup p options stats res).
  assert (H0 : outHeaders res0 !! "ETag" = outHeaders res !! "ETag").
  { subst res0. unfold contentHeaders. cbn [outHeaders].
    destruct (maxAge options =? 0); now rewrite !lookup_insert_ne by discriminate. }
  clearbody res0.
  assert (Hfull : outHeaders (responseOf
            ((stream <- createReadStream fs p None ;; pipe stream ;; ret JsUndefined)%handler
               res0)) !! "ETag" = outHeaders res !! "ETag").
  { unfold bind, pipe, ret, createReadStream. exact H0. }
  destruct (headers req !! "range") as [[| c range'] |]; try exact Hfull.
  cbv zeta.
  match goal with |- context [if ?b then _ else _] => destruct b end.
  - unfold bind, setHeader, status, end_, ret. cbn [responseOf outHeaders].
    now rewrite lookup_insert_ne by discriminate.
  - unfold bind, setHeader, status, pipe, ret. cbv beta iota.
    match goal with
    | |- context [createReadStream fs p ?rg ?r0] =>
        destruct (createReadStream fs p rg r0) as [bytes r | err r] eqn:Hcrs
    end.
    + apply createReadStream_return in Hcrs as ->.
      cbn [responseOf outHeaders].
      now rewrite !lookup_insert_ne by discriminate.
    + apply createReadStream_throw in Hcrs as [_ ->].
      cbn [responseOf outHeaders].
      now rewrite !lookup_insert_ne by discriminate.
Qed.

End NoValidator.

(** X23: with validators off ([etag: false], and the options of
    [res.sendFile] and [res.download] when none are given), the handler
    neither sets nor changes [ETag], and never answers [304], whatever
    [If-None-Match] the request carries. *)
Theorem X23_validators_off fs mimeLookup req p options res :
  etag options = false ->
  let res' := responseOf (serveStaticFile fs mimeLookup req p options res) in
  outHeaders res' !! "ETag" = outHeaders res !! "ETag"
  /\ (statusCode res <> 304 -> statusCode res' <> 304).
Proof.
  intros Hetag res'. subst res'.
  destruct (fs p) as [[c m] | n] eqn:Hfs.
  - assert (Hthrow : exists err, serveStaticFile fs mimeLookup req p options res
                                 = Throw err res).
    { unfold serveStaticFile, tryCatch, stat. rewrite Hfs. unfold bind, throw.
      destruct (isENOENT _); eauto. }
    destruct Hthrow as [err ->]. now split.
  - destruct n as [content mtimeMs | |];
      try (rewrite (serveStaticFile_not_file fs mimeLookup req p options _ res Hfs eq_refl);
           now split).
    rewrite (serveStaticFile_regular fs mimeLookup req p options content mtimeMs res Hfs)
      by (intros Hon; congruence).
    unfold withValidator. rewrite Hetag.
    split; [apply sendContent_etag |].
    intros Hne.
    pose proof (sendContent_status fs mimeLookup req p options
                  (statsOf (RegularFile content mtimeMs)) res) as Hst.
    cbv zeta in Hst.
    destruct Hst as [-> | [-> | ->]]; [exact Hne | discriminate | discriminate].
Qed.

Lemma X23_validators_off_witness :
  let req := {| path := "/static/index.html";
                headers := {[ "if-none-match" :=
                                etagOf (statsOf (RegularFile (bytesOf "<h1>hi</h1>")
                                                   1700000000000)) ]} |} in
  let res' := responseOf (serveStaticFile siteFiles siteMime req "/var/www/index.html"
                            emptyOptions freshResponse) in
  outHeaders res' !! "ETag" = None /\ statusCode res' <> 304.
Proof.
  intros req res'.
  destruct (X23_validators_off siteFiles siteMime req "/var/www/index.html"
              emptyOptions freshResponse eq_refl) as [Htag Hst].
  split; [exact Htag | apply Hst; discriminate].
Defined.

(** X24: only the two values [deny] and [ignore] hide a dotfile.  Under
    any other policy value, [allow] or a misspelt one, a regular file
    whose name begins with a dot is served as any other file. *)
Theorem X24_other_policies_serve_dotfiles
    fs mimeLookup req urlPath mount rest res content mtimeMs :
  accepted urlPath mount req ->
  fs (resolved urlPath mount req) = inr (RegularFile content mtimeMs) ->
  dotfiles (options mount) <> "deny" ->
  dotfiles (options mount) <> "ignore" ->
  handleStaticFiles fs mimeLookup req ((urlPath, mount) :: rest) res
  = serveStaticFile fs mimeLookup req (resolved urlPath mount req) (options mount) res.
Proof.
  intros Hacc Hfs Hdeny Hignore.
  rewrite handleStaticFiles_accepted by exact Hacc.
  unfold serveFromMount, stat. rewrite Hfs.
  unfold bind at 1. unfold ret at 1. cbn [statsOf isDirectory].
  rewrite (proj2 (String.eqb_neq _ _) Hdeny), (proj2 (String.eqb_neq _ _) Hignore).
  destruct (JsString.startsWith "." (Path.basename (resolved urlPath mount req)));
    apply serveStaticFile_through_catch.
Qed.

Lemma X24_other_policies_serve_dotfiles_witness :
  let mount := {| dirPath := "/var/www";
                  options := staticOptions
                               {| givenIndex := None; givenDotfiles := Some "Deny";
                                  givenEtag := None; givenMaxAge := None |} |} in
  exists res',
    handleStaticFiles siteFiles siteMime (get "/static/.env") [("/static", mount)]
      freshResponse
    = Return JsUndefined res'
    /\ body res' = bytesOf "KEY=1".
Proof.
  intros mount.
  rewrite (X24_other_policies_serve_dotfiles siteFiles siteMime (get "/static/.env")
             "/static" mount [] freshResponse (bytesOf "KEY=1") 1700000000001).
  - eexists. split; [vm_compute; reflexivity | reflexivity].
  - split; reflexivity.
  - reflexivity.
  - discriminate.
  - discriminate.
Defined.
